(** * LLM API client and configuration: a shallow embedding

    This development embeds the two Python modules of the repository,
    [config.py] and [LLMAPIClient.py], and states their behaviour as
    theorems.

    - Python values are the inductive [pyval]; dictionaries are finite maps
      with string keys.
    - A Python call either returns a value or raises an exception
      ([outcome]); calls that touch the outside world thread an explicit
      state (the file system for [Config], the client object, the standard
      output and the log of requests sent for [LLMAPIClient]).
    - The two library entry points whose answer the program cannot control
      are inputs of the model: the network ([requests.post]) is an argument
      of each call, and the JSON decoder ([json.loads]) is a variable of the
      section holding [call_api]. *)

From Stdlib Require Import ZArith Floats Ascii.
From stdpp Require Import gmap strings list fin_maps pretty.

Set Warnings "-register-all".
Set Default Proof Using "Type".

Local Open Scope Z_scope.
Local Open Scope string_scope.

(** ** Python values *)

(** The values the two modules handle: what [json.loads] can produce
    ([None], booleans, integers, floats, strings, lists, dictionaries with
    string keys) and the [pathlib.Path] objects stored in the
    configuration. A path is the list of its components, relative to the
    working directory: [Path("./data/")] is [VPath ["data"]]. *)
Inductive pyval : Type :=
  | VNone
  | VBool (b : bool)
  | VInt (z : Z)
  | VFloat (f : float)
  | VStr (s : string)
  | VList (l : list pyval)
  | VDict (d : gmap string pyval)
  | VPath (parts : list string).

(** [type(v).__name__] *)
Definition type_name (v : pyval) : string :=
  match v with
  | VNone => "NoneType"
  | VBool _ => "bool"
  | VInt _ => "int"
  | VFloat _ => "float"
  | VStr _ => "str"
  | VList _ => "list"
  | VDict _ => "dict"
  | VPath _ => "PosixPath"
  end.

(** ** Exceptions and outcomes *)

Inductive pyexn : Type :=
  | AttributeError (type_of_object attribute : string)
  | TypeError (message : string)
  | IndexError (message : string)
  | KeyError (key : pyval)
  | JSONDecodeError
  | FileExistsError (path : list string)
  | FileNotFoundError (path : list string)
  | NotADirectoryError (path : list string).

Inductive outcome (A : Type) : Type :=
  | Returns (a : A)
  | Raises (e : pyexn).
Arguments Returns {A} a.
Arguments Raises {A} e.

(** ** A state and exception monad *)

(** A computation over a state [S]: it ends by returning or by raising, and
    the effects made before an exception stay. *)
Definition M (S A : Type) : Type := S → outcome A * S.

Definition ret {S A} (a : A) : M S A := λ s, (Returns a, s).
Definition raise {S A} (e : pyexn) : M S A := λ s, (Raises e, s).
Definition bind {S A B} (m : M S A) (k : A → M S B) : M S B :=
  λ s, match m s with
       | (Returns a, s') => k a s'
       | (Raises e, s') => (Raises e, s')
       end.
Definition lift {S A} (o : outcome A) : M S A := λ s, (o, s).
Definition gets {S A} (f : S → A) : M S A := λ s, (Returns (f s), s).
Definition modify {S} (f : S → S) : M S unit := λ s, (Returns tt, f s).

Declare Scope py_scope.
Delimit Scope py_scope with py.
Notation "'let*' x ':=' m 'in' k" := (bind m (λ x, k))
  (at level 10, x name, m at level 100, k at level 200) : py_scope.
Notation "m ';;' k" := (bind m (λ _, k))
  (at level 100, k at level 200, right associativity) : py_scope.
Local Open Scope py_scope.

(** ** Operations on values *)

(** [v.get(key)]: only dictionaries have the method; a missing key gives
    [None]. *)
Definition py_get (v : pyval) (key : string) : outcome pyval :=
  match v with
  | VDict d => Returns (default VNone (d !! key))
  | _ => Raises (AttributeError (type_name v) "get")
  end.

(** [v[0]] *)
Definition py_getitem0 (v : pyval) : outcome pyval :=
  match v with
  | VList l =>
      match l with
      | x :: _ => Returns x
      | [] => Raises (IndexError "list index out of range")
      end
  | VStr s =>
      match s with
      | String a _ => Returns (VStr (String a EmptyString))
      | EmptyString => Raises (IndexError "string index out of range")
      end
  | VDict _ => Raises (KeyError (VInt 0))
  | _ => Raises (TypeError ("'" +:+ type_name v +:+ "' object is not subscriptable"))
  end.

(** [s == v] for a string [s] *)
Definition str_eq (s : string) (v : pyval) : bool :=
  match v with
  | VStr t => String.eqb s t
  | _ => false
  end.

(** [s in t] for two strings: [s] occurs in [t] *)
Fixpoint substring_of (s t : string) : bool :=
  String.prefix s t ||
  match t with
  | EmptyString => false
  | String _ t' => substring_of s t'
  end.

(** [s in v] for a string [s] *)
Definition py_contains (s : string) (v : pyval) : outcome bool :=
  match v with
  | VList l => Returns (existsb (str_eq s) l)
  | VDict d => Returns (bool_decide (is_Some (d !! s)))
  | VStr t => Returns (substring_of s t)
  | _ => Raises (TypeError ("argument of type '" +:+ type_name v +:+ "' is not iterable"))
  end.

(** ** The file system *)

(** What [Config] needs of the file system: which paths exist, and whether
    each is a directory or a regular file. Paths are lists of components
    relative to the working directory, which is the empty path and always
    a directory. *)
Inductive fsnode : Type :=
  | Dir
  | File (content : string).

Definition node_at (fs : gmap (list string) fsnode) (p : list string) : option fsnode :=
  match p with
  | [] => Some Dir
  | _ => fs !! p
  end.

Definition is_dir (fs : gmap (list string) fsnode) (p : list string) : bool :=
  match node_at fs p with
  | Some Dir => true
  | _ => false
  end.

(** [Path.parent]: the parent of the working directory is itself. *)
Definition parent (p : list string) : list string := removelast p.

(** Path resolution: every component walked through must be a directory.
    [walked] is the prefix resolved so far and [rest] what remains of the
    path to resolve. *)
Fixpoint resolve (fs : gmap (list string) fsnode) (p walked rest : list string) : outcome unit :=
  match node_at fs walked with
  | None => Raises (FileNotFoundError p)
  | Some (File _) => Raises (NotADirectoryError p)
  | Some Dir =>
      match rest with
      | [] => Returns tt
      | c :: rest' => resolve fs p (walked ++ [c]) rest'
      end
  end.

(** [os.mkdir(p)] *)
Definition os_mkdir (p : list string) : M (gmap (list string) fsnode) unit :=
  λ fs,
    match resolve fs p [] (parent p) with
    | Raises e => (Raises e, fs)
    | Returns tt =>
        match node_at fs p with
        | Some _ => (Raises (FileExistsError p), fs)
        | None => (Returns tt, <[p := Dir]> fs)
        end
    end.

(** [Path.mkdir(parents=False, exist_ok=exist_ok)], as [pathlib] writes it:
    an [OSError] of [os.mkdir] other than [FileNotFoundError] is swallowed
    when [exist_ok] holds and the path is a directory. *)
Definition mkdir_here (p : list string) (exist_ok : bool) : M (gmap (list string) fsnode) unit :=
  λ fs,
    match os_mkdir p fs with
    | (Returns tt, fs') => (Returns tt, fs')
    | (Raises (FileNotFoundError q), fs') => (Raises (FileNotFoundError q), fs')
    | (Raises e, fs') =>
        if negb exist_ok || negb (is_dir fs' p) then (Raises e, fs')
        else (Returns tt, fs')
    end.

(** [Path.mkdir(parents=True, exist_ok=exist_ok)] on the path whose
    components, last first, are [rp]: on [FileNotFoundError] the parent is
    made first, with [parents=True, exist_ok=True], and the directory is
    then made with [parents=False]. *)
Fixpoint mkdir_parents (rp : list string) (exist_ok : bool) : M (gmap (list string) fsnode) unit :=
  λ fs,
    match os_mkdir (rev rp) fs with
    | (Returns tt, fs') => (Returns tt, fs')
    | (Raises (FileNotFoundError q), fs') =>
        match rp with
        | [] => (Raises (FileNotFoundError q), fs')
        | _ :: rp' =>
            match mkdir_parents rp' true fs' with
            | (Returns tt, fs'') => mkdir_here (rev rp) exist_ok fs''
            | (Raises e, fs'') => (Raises e, fs'')
            end
        end
    | (Raises e, fs') =>
        if negb exist_ok || negb (is_dir fs' (rev rp)) then (Raises e, fs')
        else (Returns tt, fs')
    end.

(** [directory.mkdir(parents=True, exist_ok=True)] on a value: only paths
    have the method. *)
Definition py_mkdir (v : pyval) : M (gmap (list string) fsnode) unit :=
  match v with
  | VPath parts => mkdir_parents (rev parts) true
  | _ => raise (AttributeError (type_name v) "mkdir")
  end.

(** ** config.py *)

Module Config.

(** [self.name]: the attributes of a [Config] object are those assigned
    in [__init__]; the class itself has only its two methods. *)
Definition getattr (self : gmap string pyval) (name : string) : outcome pyval :=
  match self !! name with
  | Some v => Returns v
  | None => Raises (AttributeError "Config" name)
  end.

(** [_init_paths]: create the directories if they do not exist. *)
Definition _init_paths (self : gmap string pyval) : M (gmap (list string) fsnode) unit :=
  let* data_dir_path := lift (getattr self "DATA_DIR_PATH") in
  let directories := [data_dir_path] in
  foldr (λ directory rest, py_mkdir directory;; rest) (ret tt) directories.

(** The attribute assignments of [__init__], in order. *)
Definition parameters_and_paths : gmap string pyval :=
  let self : gmap string pyval := ∅ in
  let self := <["SAMPLE_FREQUENCY_NANO_SECONDS" := VInt 10000000]> self in
  let self := <["LLM_SERVICE_KEYWORD" := VStr "ollamaserve"]> self in
  let self := <["MONITORING_SERVICE_KEYWORD" := VStr "scaphandre"]> self in
  let self := <["MONITORING_START_DELAY" := VFloat 1.0%float]> self in
  let self := <["MONITORING_END_DELAY" := VFloat 1.0%float]> self in
  let self := <["DATA_DIR_PATH" := VPath ["data"]]> self in
  let self := <["CONFIG_FILE_PATH" := VPath ["config"; "config.ini"]]> self in
  self.

(** [Config()]: the new object, after [__init__] has run. *)
Definition __init__ : M (gmap (list string) fsnode) (gmap string pyval) :=
  let self := parameters_and_paths in
  _init_paths self;;
  ret self.

(** The module-level [config = Config()]. Its attributes do not depend
    on the file system; [import config] fails when [__init__] raises. *)
Definition config : gmap string pyval := parameters_and_paths.

End Config.

(** ** The requests library *)

(** What [call_api] reads of a [requests.Response]. *)
Record Response : Type := {
  status_code : Z;
  reason : string;
  url : string;
  text : string;
}.

(** What one [requests.post(url, json=data)] does: it raises a
    [requests.exceptions.RequestException] (connection refused, timeout,
    invalid URL, ...), given here by its [str], or it returns a response. *)
Inductive post_result : Type :=
  | PostRaises (str_e : string)
  | PostReturns (response : Response).

(** [response.raise_for_status()]: the [str] of the [HTTPError] it raises
    for a status from 400 to 599, and [None] when it raises nothing. *)
Definition raise_for_status (response : Response) : option string :=
  if ((400 <=? status_code response) && (status_code response <? 500))%Z then
    Some (pretty (status_code response) +:+ " Client Error: " +:+ reason response
          +:+ " for url: " +:+ url response)
  else if ((500 <=? status_code response) && (status_code response <? 600))%Z then
    Some (pretty (status_code response) +:+ " Server Error: " +:+ reason response
          +:+ " for url: " +:+ url response)
  else None.

(** What the [try] block of [call_api] ends with: [inl (str e)] for the
    [RequestException] that [except] catches, raised by [requests.post] or
    by [raise_for_status], and [inr response] otherwise. *)
Definition checked (r : post_result) : string + Response :=
  match r with
  | PostRaises e => inl e
  | PostReturns response =>
      match raise_for_status response with
      | Some e => inl e
      | None => inr response
      end
  end.

(** ** LLMAPIClient.py *)

Module LLMAPIClient.

(** The attributes of a client object. *)
Record t : Type := {
  llm_service : string;
  api_url : string;
  model_name : string;
  role : string;
}.

(** [LLMAPIClient(llm_service, api_url, model_name, role="user")] *)
Definition __init__ (llm_service api_url model_name : string) (role : option string) : t :=
  {| llm_service := llm_service;
     api_url := api_url;
     model_name := model_name;
     role := default "user" role |}.

(** The state a call runs in: the client object, the lines printed so
    far, and the requests posted so far (URL and JSON body). *)
Record process : Type := {
  self : t;
  stdout : list string;
  posted : list (string * pyval);
}.

(** [print(line)] *)
Definition print (line : string) : M process unit :=
  modify (λ st, {| self := self st; stdout := stdout st ++ [line]; posted := posted st |}).

(** The [try] block: [requests.post(url, json=data)], then
    [response.raise_for_status()]. *)
Definition post_and_check (network : string → pyval → post_result)
    (url : string) (data : pyval) : M process (string + Response) :=
  modify (λ st, {| self := self st; stdout := stdout st;
                   posted := posted st ++ [(url, data)] |});;
  ret (checked (network url data)).


Section call_api.

(** [json.loads]: the decoded value, or [None] when it raises
    [json.JSONDecodeError]. *)
Variable json_loads : string → option pyval.

(** The module-level [config] that [from config import config] binds. *)
Variable config : gmap string pyval.

Definition loads (s : string) : outcome pyval :=
  match json_loads s with
  | Some v => Returns v
  | None => Raises JSONDecodeError
  end.

Definition call_api (network : string → pyval → post_result)
    (prompt : string) (role : option string) (stream : bool) : M process pyval :=
  let* role :=
    match role with
    | None => gets (λ st, LLMAPIClient.role (self st))
    | Some role => ret role
    end in
  let* model_name := gets (λ st, LLMAPIClient.model_name (self st)) in
  let data : pyval :=
    VDict (list_to_map
      [("model", VStr model_name);
       ("messages", VList [VDict (list_to_map
                       [("role", VStr role); ("content", VStr prompt)])]);
       ("stream", VBool stream)]) in
  let* api_url := gets (λ st, LLMAPIClient.api_url (self st)) in
  let* checked := post_and_check network api_url data in
  match checked with
  | inl e =>
      print ("Request failed: " +:+ e);;
      ret VNone
  | inr response =>
      let* response_json := lift (loads (text response)) in
      let* llm_service := gets (λ st, LLMAPIClient.llm_service (self st)) in
      let* data :=
        if String.eqb llm_service "ollama" then
          let* model_name := gets (λ st, LLMAPIClient.model_name (self st)) in
          let* created_at := lift (py_get response_json "created_at") in
          let* total_duration := lift (py_get response_json "total_duration") in
          let* load_duration := lift (py_get response_json "load_duration") in
          let* prompt_token_length := lift (py_get response_json "prompt_eval_count") in
          let* prompt_duration := lift (py_get response_json "prompt_eval_duration") in
          let* response_token_length := lift (py_get response_json "eval_count") in
          let* response_duration := lift (py_get response_json "eval_duration") in
          let* message := lift (py_get response_json "message") in
          let* response := lift (py_get message "content") in
          ret (VDict (list_to_map
            [("model_name", VStr model_name);
             ("created_at", created_at);
             ("total_duration", total_duration);
             ("load_duration", load_duration);
             ("prompt_token_length", prompt_token_length);
             ("prompt_duration", prompt_duration);
             ("response_token_length", response_token_length);
             ("response_duration", response_duration);
             ("prompt", VStr prompt);
             ("response", response)]))
        else
          let* services := lift (Config.getattr config "OPENAI_API_COMPATIBLE_SERVICES") in
          let* compatible := lift (py_contains llm_service services) in
          if (compatible : bool) then
            let* model_name := gets (λ st, LLMAPIClient.model_name (self st)) in
            let* created_at := lift (py_get response_json "created") in
            let* usage := lift (py_get response_json "usage") in
            let* prompt_token_length := lift (py_get usage "prompt_tokens") in
            let* usage := lift (py_get response_json "usage") in
            let* response_token_length := lift (py_get usage "completion_tokens") in
            let* choices := lift (py_get response_json "choices") in
            let* choice := lift (py_getitem0 choices) in
            let* message := lift (py_get choice "message") in
            let* response := lift (py_get message "content") in
            ret (VDict (list_to_map
              [("model_name", VStr model_name);
               ("created_at", created_at);
               ("total_duration", VNone);
               ("load_duration", VNone);
               ("prompt_token_length", prompt_token_length);
               ("prompt_duration", VNone);
               ("response_token_length", response_token_length);
               ("response_duration", VNone);
               ("prompt", VStr prompt);
               ("response", response)]))
          else ret data
      in
      ret data
  end.

End call_api.

(** One call of a sequence: its arguments, and what the network does
    when it is made. *)
Record call : Type := {
  call_network : string → pyval → post_result;
  call_prompt : string;
  call_role : option string;
  call_stream : bool;
}.

(** A caller making the calls one after the other on the same client,
    going on after a call that raised. *)
Fixpoint run_calls (json_loads : string → option pyval) (config : gmap string pyval)
    (calls : list call) (st : process) : list (outcome pyval) * process :=
  match calls with
  | [] => ([], st)
  | c :: calls' =>
      let '(o, st') :=
        call_api json_loads config (call_network c) (call_prompt c)
          (call_role c) (call_stream c) st in
      let '(os, st'') := run_calls json_loads config calls' st' in
      (o :: os, st'')
  end.

End LLMAPIClient.

(** ** Sample documents *)

(** The documents the examples below run on. JSON text needs the double
    quote, written here by its code. *)
Module Samples.

Definition q (s : string) : string :=
  String "034"%char (s +:+ String "034"%char EmptyString).

(** The response of the end-to-end example. *)
Definition ollama_text : string :=
  "{" +:+ q "created_at" +:+ ":" +:+ q "2024-01-01T00:00:00Z" +:+ ","
  +:+ q "total_duration" +:+ ":100,"
  +:+ q "load_duration" +:+ ":10,"
  +:+ q "prompt_eval_count" +:+ ":3,"
  +:+ q "prompt_eval_duration" +:+ ":5,"
  +:+ q "eval_count" +:+ ":2,"
  +:+ q "eval_duration" +:+ ":7,"
  +:+ q "message" +:+ ":{" +:+ q "content" +:+ ":" +:+ q "Hi!" +:+ "}}".

Definition ollama_json : pyval :=
  VDict (list_to_map
    [("created_at", VStr "2024-01-01T00:00:00Z");
     ("total_duration", VInt 100);
     ("load_duration", VInt 10);
     ("prompt_eval_count", VInt 3);
     ("prompt_eval_duration", VInt 5);
     ("eval_count", VInt 2);
     ("eval_duration", VInt 7);
     ("message", VDict (list_to_map [("content", VStr "Hi!")]))]).

(** An ollama response without [total_duration]. *)
Definition no_total_text : string :=
  "{" +:+ q "created_at" +:+ ":" +:+ q "2024-01-01T00:00:00Z" +:+ ","
  +:+ q "load_duration" +:+ ":10,"
  +:+ q "prompt_eval_count" +:+ ":3,"
  +:+ q "prompt_eval_duration" +:+ ":5,"
  +:+ q "eval_count" +:+ ":2,"
  +:+ q "eval_duration" +:+ ":7,"
  +:+ q "message" +:+ ":{" +:+ q "content" +:+ ":" +:+ q "Hi!" +:+ "}}".

Definition no_total_json : pyval :=
  VDict (list_to_map
    [("created_at", VStr "2024-01-01T00:00:00Z");
     ("load_duration", VInt 10);
     ("prompt_eval_count", VInt 3);
     ("prompt_eval_duration", VInt 5);
     ("eval_count", VInt 2);
     ("eval_duration", VInt 7);
     ("message", VDict (list_to_map [("content", VStr "Hi!")]))]).

(** An ollama response without [message]. *)
Definition no_message_text : string :=
  "{" +:+ q "created_at" +:+ ":" +:+ q "2024-01-01T00:00:00Z" +:+ ","
  +:+ q "total_duration" +:+ ":100}".

Definition no_message_json : pyval :=
  VDict (list_to_map
    [("created_at", VStr "2024-01-01T00:00:00Z");
     ("total_duration", VInt 100)]).

(** A response of an OpenAI-compatible service. *)
Definition openai_text : string :=
  "{" +:+ q "created" +:+ ":1717800000,"
  +:+ q "usage" +:+ ":{" +:+ q "prompt_tokens" +:+ ":3,"
  +:+ q "completion_tokens" +:+ ":2},"
  +:+ q "choices" +:+ ":[{" +:+ q "message" +:+ ":{"
  +:+ q "content" +:+ ":" +:+ q "Hi!" +:+ "}}]}".

Definition openai_json : pyval :=
  VDict (list_to_map
    [("created", VInt 1717800000);
     ("usage", VDict (list_to_map
        [("prompt_tokens", VInt 3); ("completion_tokens", VInt 2)]));
     ("choices", VList [VDict (list_to_map
        [("message", VDict (list_to_map [("content", VStr "Hi!")]))])])]).

(** A body that is not JSON. *)
Definition html_text : string := "<html>502 Bad Gateway</html>".

(** [json.loads] on the sample documents; no other text is decoded in
    the examples. *)
Definition json_loads (s : string) : option pyval :=
  if String.eqb s ollama_text then Some ollama_json
  else if String.eqb s no_total_text then Some no_total_json
  else if String.eqb s no_message_text then Some no_message_json
  else if String.eqb s openai_text then Some openai_json
  else None.

Definition ok_response (body : string) : Response :=
  {| status_code := 200; reason := "OK";
     url := "http://localhost:11434/api/chat"; text := body |}.

(** A server that answers every request with [response]. *)
Definition answers (response : Response) : string → pyval → post_result :=
  λ _ _, PostReturns response.

(** No server is listening. *)
Definition refuses : string → pyval → post_result :=
  λ _ _, PostRaises "Connection refused".

Definition ollama_client : LLMAPIClient.t :=
  LLMAPIClient.__init__ "ollama" "http://localhost:11434/api/chat" "llama3" None.

Definition openai_client : LLMAPIClient.t :=
  LLMAPIClient.__init__ "openai" "http://localhost:8080/v1/chat/completions"
    "llama3" None.

Definition other_client : LLMAPIClient.t :=
  LLMAPIClient.__init__ "mistral" "http://localhost:8080/v1/chat/completions"
    "llama3" None.

(** A configuration that also defines the set of compatible services,
    which [Config] does not. *)
Definition config_with_services : gmap string pyval :=
  <["OPENAI_API_COMPATIBLE_SERVICES" := VList [VStr "openai"; VStr "llamafile"]]>
    Config.config.

Definition start (client : LLMAPIClient.t) : LLMAPIClient.process :=
  {| LLMAPIClient.self := client; LLMAPIClient.stdout := [];
     LLMAPIClient.posted := [] |}.

End Samples.

(** Further documents: bodies that are JSON but not of the expected
    shape. *)
Module Cases.

(** A body that is a JSON array. *)
Definition array_text : string := "[1, 2]".

Definition array_json : pyval := VList [VInt 1; VInt 2].

(** An ollama body whose [message] is [null]. *)
Definition null_message_text : string :=
  "{" +:+ Samples.q "total_duration" +:+ ":100,"
  +:+ Samples.q "message" +:+ ":null}".

Definition null_message_json : pyval :=
  VDict (list_to_map [("total_duration", VInt 100); ("message", VNone)]).

(** A body of an OpenAI-compatible service without [usage]. *)
Definition no_usage_text : string :=
  "{" +:+ Samples.q "created" +:+ ":1717800000,"
  +:+ Samples.q "choices" +:+ ":[{" +:+ Samples.q "message" +:+ ":{"
  +:+ Samples.q "content" +:+ ":" +:+ Samples.q "Hi!" +:+ "}}]}".

Definition no_usage_json : pyval :=
  VDict (list_to_map
    [("created", VInt 1717800000);
     ("choices", VList [VDict (list_to_map
        [("message", VDict (list_to_map [("content", VStr "Hi!")]))])])]).

(** A body of an OpenAI-compatible service with no choice. *)
Definition empty_choices_text : string :=
  "{" +:+ Samples.q "created" +:+ ":1717800000,"
  +:+ Samples.q "usage" +:+ ":{" +:+ Samples.q "prompt_tokens" +:+ ":3,"
  +:+ Samples.q "completion_tokens" +:+ ":0},"
  +:+ Samples.q "choices" +:+ ":[]}".

Definition empty_choices_json : pyval :=
  VDict (list_to_map
    [("created", VInt 1717800000);
     ("usage", VDict (list_to_map
        [("prompt_tokens", VInt 3); ("completion_tokens", VInt 0)]));
     ("choices", VList [])]).

(** [json.loads] on these documents and on those of [Samples]. *)
Definition json_loads (s : string) : option pyval :=
  if String.eqb s array_text then Some array_json
  else if String.eqb s null_message_text then Some null_message_json
  else if String.eqb s no_usage_text then Some no_usage_json
  else if String.eqb s empty_choices_text then Some empty_choices_json
  else Samples.json_loads s.

(** A first call and a second one, the server being gone in between. *)
Definition two_calls : list LLMAPIClient.call :=
  [ {| LLMAPIClient.call_network :=
         Samples.answers (Samples.ok_response Samples.ollama_text);
       LLMAPIClient.call_prompt := "Say hi";
       LLMAPIClient.call_role := None;
       LLMAPIClient.call_stream := false |};
    {| LLMAPIClient.call_network := Samples.refuses;
       LLMAPIClient.call_prompt := "Say bye";
       LLMAPIClient.call_role := Some "system";
       LLMAPIClient.call_stream := true |} ].

End Cases.

(** ** Vocabulary of the statements *)

(** The class of an exception, by name. The repository defines no
    exception class of its own: what a call raises is an exception of
    Python or of its libraries. *)
Definition class_name (e : pyexn) : string :=
  match e with
  | AttributeError _ _ => "AttributeError"
  | TypeError _ => "TypeError"
  | IndexError _ => "IndexError"
  | KeyError _ => "KeyError"
  | JSONDecodeError => "JSONDecodeError"
  | FileExistsError _ => "FileExistsError"
  | FileNotFoundError _ => "FileNotFoundError"
  | NotADirectoryError _ => "NotADirectoryError"
  end.

(** The JSON body a call posts, as a function of the client and of the
    arguments of the call. *)
Definition request_body (client : LLMAPIClient.t) (prompt : string)
    (role : option string) (stream : bool) : pyval :=
  VDict (list_to_map
    [("model", VStr (LLMAPIClient.model_name client));
     ("messages", VList [VDict (list_to_map
        [("role", VStr (default (LLMAPIClient.role client) role));
         ("content", VStr prompt)])]);
     ("stream", VBool stream)]).

(** What the network and [raise_for_status] give for a call. *)
Definition request_result (network : string → pyval → post_result)
    (client : LLMAPIClient.t) (prompt : string) (role : option string)
    (stream : bool) : string + Response :=
  checked (network (LLMAPIClient.api_url client) (request_body client prompt role stream)).

(** The state after a call that posted its request and printed [lines]. *)
Definition after_request (st : LLMAPIClient.process) (prompt : string)
    (role : option string) (stream : bool) (lines : list string) : LLMAPIClient.process :=
  {| LLMAPIClient.self := LLMAPIClient.self st;
     LLMAPIClient.stdout := LLMAPIClient.stdout st ++ lines;
     LLMAPIClient.posted :=
       LLMAPIClient.posted st ++
       [(LLMAPIClient.api_url (LLMAPIClient.self st),
         request_body (LLMAPIClient.self st) prompt role stream)] |}.

(** The ten fields of a result, in the order of the dictionary display. *)
Definition result_dict (model_name created_at total_duration load_duration
    prompt_token_length prompt_duration response_token_length response_duration
    prompt response : pyval) : gmap string pyval :=
  list_to_map
    [("model_name", model_name);
     ("created_at", created_at);
     ("total_duration", total_duration);
     ("load_duration", load_duration);
     ("prompt_token_length", prompt_token_length);
     ("prompt_duration", prompt_duration);
     ("response_token_length", response_token_length);
     ("response_duration", response_duration);
     ("prompt", prompt);
     ("response", response)].

(** The dictionary the ollama branch builds from the decoded body [d] and
    its [message] object [m]: every field is read with [get], so an absent
    key reads as [None]. *)
Definition ollama_data (model_name prompt : string) (d m : gmap string pyval) : pyval :=
  VDict (result_dict (VStr model_name)
    (default VNone (d !! "created_at"))
    (default VNone (d !! "total_duration"))
    (default VNone (d !! "load_duration"))
    (default VNone (d !! "prompt_eval_count"))
    (default VNone (d !! "prompt_eval_duration"))
    (default VNone (d !! "eval_count"))
    (default VNone (d !! "eval_duration"))
    (VStr prompt)
    (default VNone (m !! "content"))).

(** The dictionary the OpenAI-compatible branch builds. *)
Definition openai_data (model_name prompt : string)
    (created_at prompt_token_length response_token_length response : pyval) : pyval :=
  VDict (result_dict (VStr model_name) created_at VNone VNone
    prompt_token_length VNone response_token_length VNone (VStr prompt) response).

(** The configuration defines the set of compatible services, and the
    service [s] is in it, or is not. *)
Definition listed (config : gmap string pyval) (s : string) (b : bool) : Prop :=
  ∃ services,
    config !! "OPENAI_API_COMPATIBLE_SERVICES" = Some services ∧
    py_contains s services = Returns b.

(** What a client of the service [ollama] gets, as a function of the
    result of its request: the body is decoded, and the result is built when
    the body is a dictionary whose [message] is one too. *)
Definition ollama_outcome (json_loads : string → option pyval)
    (model_name prompt : string) (checked : string + Response) : outcome pyval :=
  match checked with
  | inl _ => Returns VNone
  | inr response =>
      match json_loads (text response) with
      | None => Raises JSONDecodeError
      | Some (VDict d) =>
          match default VNone (d !! "message") with
          | VDict m => Returns (ollama_data model_name prompt d m)
          | v => Raises (AttributeError (type_name v) "get")
          end
      | Some j => Raises (AttributeError (type_name j) "get")
      end
  end.

(** The keys of a result. *)
Definition result_keys : list string :=
  ["model_name"; "created_at"; "total_duration"; "load_duration";
   "prompt_token_length"; "prompt_duration"; "response_token_length";
   "response_duration"; "prompt"; "response"].

(** The request a call posts. *)
Definition request_of (client : LLMAPIClient.t) (c : LLMAPIClient.call) : string * pyval :=
  (LLMAPIClient.api_url client,
   request_body client (LLMAPIClient.call_prompt c) (LLMAPIClient.call_role c)
     (LLMAPIClient.call_stream c)).

(** A computation that looks at the client only, not at what was
    printed or posted before it, and that leaves the client alone: from
    two states with the same client it ends the same way, with the same
    client. *)
Definition client_only {A} (m : M LLMAPIClient.process A) : Prop :=
  ∀ st1 st2,
    LLMAPIClient.self st1 = LLMAPIClient.self st2 →
    fst (m st1) = fst (m st2) ∧
    LLMAPIClient.self (snd (m st1)) = LLMAPIClient.self (snd (m st2)).

(** ** The call, step by step *)

(** Unfold a call up to the request, for each form of the [role]
    argument; [Hreq] tells the result of the request. *)
Ltac run_call_api Hreq role :=
  unfold request_result, request_body in Hreq;
  unfold LLMAPIClient.call_api, LLMAPIClient.post_and_check, LLMAPIClient.loads,
    LLMAPIClient.print, bind, gets, ret, lift, modify, after_request, request_body;
  rewrite ?app_nil_r;
  destruct role; cbn [default from_option id] in *.

Section call_api_facts.

Import LLMAPIClient.

Variable json_loads : string → option pyval.
Variable config : gmap string pyval.
Variable network : string → pyval → post_result.

Lemma call_api_failed prompt role stream st e :
  request_result network (self st) prompt role stream = inl e →
  call_api json_loads config network prompt role stream st
  = (Returns VNone, after_request st prompt role stream ["Request failed: " +:+ e]).
Proof.
  intros Hreq. run_call_api Hreq role.
  all: rewrite Hreq; reflexivity.
Qed.

Lemma call_api_not_decoded prompt role stream st response :
  request_result network (self st) prompt role stream = inr response →
  json_loads (text response) = None →
  call_api json_loads config network prompt role stream st
  = (Raises JSONDecodeError, after_request st prompt role stream []).
Proof.
  intros Hreq Hjson. run_call_api Hreq role.
  all: rewrite Hreq, Hjson; reflexivity.
Qed.

(** The ollama branch, on a decoded body that is a dictionary. *)
Lemma call_api_ollama prompt role stream st response d :
  llm_service (self st) = "ollama" →
  request_result network (self st) prompt role stream = inr response →
  json_loads (text response) = Some (VDict d) →
  call_api json_loads config network prompt role stream st
  = (match default VNone (d !! "message") with
     | VDict m => Returns (ollama_data (model_name (self st)) prompt d m)
     | v => Raises (AttributeError (type_name v) "get")
     end, after_request st prompt role stream []).
Proof.
  intros Hsvc Hreq Hjson. run_call_api Hreq role.
  all: rewrite Hreq, Hjson; cbn [self stdout posted]; rewrite Hsvc;
    cbn [String.eqb Ascii.eqb Bool.eqb py_get self].
  all: destruct (d !! "message") as [[]|]; reflexivity.
Qed.

(** The ollama branch, on a decoded body that is not a dictionary. *)
Lemma call_api_ollama_not_dict prompt role stream st response j :
  llm_service (self st) = "ollama" →
  request_result network (self st) prompt role stream = inr response →
  json_loads (text response) = Some j →
  (∀ d, j ≠ VDict d) →
  call_api json_loads config network prompt role stream st
  = (Raises (AttributeError (type_name j) "get"), after_request st prompt role stream []).
Proof.
  intros Hsvc Hreq Hjson Hj. run_call_api Hreq role.
  all: rewrite Hreq, Hjson; cbn [self stdout posted]; rewrite Hsvc;
    cbn [String.eqb Ascii.eqb Bool.eqb self].
  all: destruct j; try reflexivity; by destruct (Hj d).
Qed.

(** Past the ollama test, the configuration is asked for its set of
    compatible services. *)
Lemma call_api_no_services prompt role stream st response j :
  llm_service (self st) ≠ "ollama" →
  request_result network (self st) prompt role stream = inr response →
  json_loads (text response) = Some j →
  config !! "OPENAI_API_COMPATIBLE_SERVICES" = None →
  call_api json_loads config network prompt role stream st
  = (Raises (AttributeError "Config" "OPENAI_API_COMPATIBLE_SERVICES"),
     after_request st prompt role stream []).
Proof.
  intros Hsvc%String.eqb_neq Hreq Hjson Hcfg. run_call_api Hreq role.
  all: rewrite Hreq, Hjson; cbn [self stdout posted]; rewrite Hsvc.
  all: unfold Config.getattr; rewrite Hcfg; reflexivity.
Qed.

(** A service that is neither ollama nor listed: no branch rebinds
    [data], and the request body is returned. *)
Lemma call_api_unlisted prompt role stream st response j :
  llm_service (self st) ≠ "ollama" →
  request_result network (self st) prompt role stream = inr response →
  json_loads (text response) = Some j →
  listed config (llm_service (self st)) false →
  call_api json_loads config network prompt role stream st
  = (Returns (request_body (self st) prompt role stream),
     after_request st prompt role stream []).
Proof.
  intros Hsvc%String.eqb_neq Hreq Hjson (services & Hcfg & Hin).
  run_call_api Hreq role.
  all: rewrite Hreq, Hjson; cbn [self stdout posted]; rewrite Hsvc.
  all: unfold Config.getattr; rewrite Hcfg, Hin; reflexivity.
Qed.

(** A listed service: the OpenAI-compatible branch, on a body of that
    shape. *)
Lemma call_api_openai prompt role stream st response d usage choice rest m :
  llm_service (self st) ≠ "ollama" →
  request_result network (self st) prompt role stream = inr response →
  json_loads (text response) = Some (VDict d) →
  listed config (llm_service (self st)) true →
  d !! "usage" = Some (VDict usage) →
  d !! "choices" = Some (VList (VDict choice :: rest)) →
  choice !! "message" = Some (VDict m) →
  call_api json_loads config network prompt role stream st
  = (Returns (openai_data (model_name (self st)) prompt
                (default VNone (d !! "created"))
                (default VNone (usage !! "prompt_tokens"))
                (default VNone (usage !! "completion_tokens"))
                (default VNone (m !! "content"))),
     after_request st prompt role stream []).
Proof.
  intros Hsvc%String.eqb_neq Hreq Hjson (services & Hcfg & Hin) Husage Hchoices Hm.
  run_call_api Hreq role.
  all: rewrite Hreq, Hjson; cbn [self stdout posted]; rewrite Hsvc.
  all: unfold Config.getattr; rewrite Hcfg, Hin; cbn [py_get].
  all: rewrite Husage, Hchoices; cbn [default from_option id py_get py_getitem0].
  all: rewrite Hm; reflexivity.
Qed.

(** Whatever a listed service answers, a value returned by the branch is
    the dictionary of the branch. *)
Lemma call_api_openai_returns prompt role stream st response v :
  llm_service (self st) ≠ "ollama" →
  request_result network (self st) prompt role stream = inr response →
  listed config (llm_service (self st)) true →
  fst (call_api json_loads config network prompt role stream st) = Returns v →
  ∃ created_at prompt_token_length response_token_length content,
    v = openai_data (model_name (self st)) prompt
          created_at prompt_token_length response_token_length content.
Proof.
  intros Hsvc%String.eqb_neq Hreq (services & Hcfg & Hin).
  run_call_api Hreq role.
  all: rewrite Hreq; cbn [self stdout posted].
  all: destruct (json_loads (text response)) as [j|]; [|discriminate].
  all: rewrite Hsvc; unfold Config.getattr; rewrite Hcfg, Hin.
  all: destruct (py_get j "created"); [|discriminate].
  all: destruct (py_get j "usage") as [usage|]; [|discriminate].
  all: destruct (py_get usage "prompt_tokens"); [|discriminate].
  all: destruct (py_get usage "completion_tokens"); [|discriminate].
  all: destruct (py_get j "choices") as [choices|]; [|discriminate].
  all: destruct (py_getitem0 choices) as [choice|]; [|discriminate].
  all: destruct (py_get choice "message") as [message|]; [|discriminate].
  all: destruct (py_get message "content"); [|discriminate].
  all: intros [= <-]; unfold openai_data; eauto 10.
Qed.

(** Every call posts one request and leaves the client as it was. *)
Lemma call_api_state prompt role stream st :
  ∃ lines,
    snd (call_api json_loads config network prompt role stream st)
    = after_request st prompt role stream lines.
Proof.
  destruct (request_result network (self st) prompt role stream) as [e|response] eqn:Hreq.
  { eexists. by rewrite (call_api_failed _ _ _ _ _ Hreq). }
  exists []. run_call_api Hreq role.
  all: rewrite Hreq; cbn [self stdout posted].
  all: repeat (case_match; simplify_eq; try reflexivity).
Qed.

End call_api_facts.

(** ** Creating directories *)

Section mkdir_facts.

Implicit Types (fs : gmap (list string) fsnode) (p rp : list string).

Lemma os_mkdir_returns p fs fs' :
  os_mkdir p fs = (Returns tt, fs') →
  fs !! p = None ∧ fs' = <[p := Dir]> fs.
Proof.
  unfold os_mkdir. destruct (resolve fs p [] (parent p)) as [[]|]; [|done].
  destruct p as [|c p]; cbn [node_at]; [done|].
  destruct (fs !! (c :: p)); [done|]. by intros [= <-].
Qed.

Lemma os_mkdir_raises p fs fs' e :
  os_mkdir p fs = (Raises e, fs') → fs' = fs.
Proof.
  unfold os_mkdir. destruct (resolve fs p [] (parent p)) as [[]|]; [|congruence].
  destruct (node_at fs p); congruence.
Qed.

(** Nothing that exists is removed or replaced. *)
Lemma os_mkdir_subseteq p fs o fs' : os_mkdir p fs = (o, fs') → fs ⊆ fs'.
Proof.
  destruct o as [[]|e]; intros H.
  - apply os_mkdir_returns in H as [Hp ->]. by apply insert_subseteq.
  - by apply os_mkdir_raises in H as ->.
Qed.

Lemma mkdir_here_subseteq p exist_ok fs o fs' :
  mkdir_here p exist_ok fs = (o, fs') → fs ⊆ fs'.
Proof.
  unfold mkdir_here. destruct (os_mkdir p fs) as [o1 fs1] eqn:H1.
  apply os_mkdir_subseteq in H1.
  repeat case_match; by intros [= <- <-].
Qed.

Lemma mkdir_parents_subseteq rp exist_ok fs o fs' :
  mkdir_parents rp exist_ok fs = (o, fs') → fs ⊆ fs'.
Proof.
  revert exist_ok fs o fs'. induction rp as [|c rp IH]; intros exist_ok fs o fs';
    cbn [mkdir_parents];
    destruct (os_mkdir _ fs) as [[[]|e] fs1] eqn:H1; apply os_mkdir_subseteq in H1.
  - by intros [= <- <-].
  - destruct e; try (case_match; by intros [= <- <-]). by intros [= <- <-].
  - by intros [= <- <-].
  - destruct e; try (case_match; by intros [= <- <-]).
    destruct (mkdir_parents rp true fs1) as [[[]|e2] fs2] eqn:H2; apply IH in H2.
    + intros H3%mkdir_here_subseteq. by repeat (etrans; [eassumption|]).
    + intros [= <- <-]. by etrans.
Qed.

Lemma mkdir_here_is_dir p exist_ok fs fs' :
  mkdir_here p exist_ok fs = (Returns tt, fs') → is_dir fs' p = true.
Proof.
  unfold mkdir_here. destruct (os_mkdir p fs) as [[[]|e] fs1] eqn:H1.
  - apply os_mkdir_returns in H1 as [Hp ->]. intros [= <-].
    unfold is_dir, node_at. destruct p; [done|]. by rewrite lookup_insert_eq.
  - destruct e; try done;
      by destruct (negb exist_ok || negb (is_dir fs1 p)) eqn:Hd;
        [|intros [= <-]; apply orb_false_elim in Hd as [_ ?%negb_false_iff]].
Qed.

(** A successful [mkdir] leaves a directory at the path. *)
Lemma mkdir_parents_is_dir rp exist_ok fs fs' :
  mkdir_parents rp exist_ok fs = (Returns tt, fs') → is_dir fs' (rev rp) = true.
Proof.
  destruct rp as [|c rp]; [done|]. cbn [mkdir_parents].
  generalize (rev (c :: rp)). intros p.
  destruct (os_mkdir p fs) as [[[]|e] fs1] eqn:H1.
  - apply os_mkdir_returns in H1 as [Hp ->]. intros [= <-].
    unfold is_dir, node_at. destruct p; [done|]. by rewrite lookup_insert_eq.
  - destruct e;
      try by destruct (negb exist_ok || negb (is_dir fs1 p)) eqn:Hd;
        [|intros [= <-]; apply orb_false_elim in Hd as [_ ?%negb_false_iff]].
    destruct (mkdir_parents rp true fs1) as [[[]|e2] fs2]; [|done].
    apply mkdir_here_is_dir.
Qed.

(** [mkdir] of the data directory, in full. *)
Lemma mkdir_data fs :
  py_mkdir (VPath ["data"]) fs =
  match fs !! ["data"] with
  | None => (Returns tt, <[["data"] := Dir]> fs)
  | Some Dir => (Returns tt, fs)
  | Some (File _) => (Raises (FileExistsError ["data"]), fs)
  end.
Proof.
  cbn [py_mkdir mkdir_parents rev app os_mkdir parent removelast resolve node_at].
  destruct (fs !! ["data"]) as [[]|] eqn:E; cbn [negb orb]; unfold is_dir, node_at;
    rewrite ?E; reflexivity.
Qed.

End mkdir_facts.

(** ** The configuration object *)

Lemma config_data_dir_path :
  Config.getattr Config.parameters_and_paths "DATA_DIR_PATH" = Returns (VPath ["data"]).
Proof. reflexivity. Qed.

(** [Config] never defines the set of compatible services. *)
Lemma config_no_services :
  Config.config !! "OPENAI_API_COMPATIBLE_SERVICES" = None.
Proof. reflexivity. Qed.

(** The attributes of a [Config] object are the seven of [__init__]. *)
Lemma config_attributes :
  map_to_list Config.config ≡ₚ
    [("SAMPLE_FREQUENCY_NANO_SECONDS", VInt 10000000);
     ("LLM_SERVICE_KEYWORD", VStr "ollamaserve");
     ("MONITORING_SERVICE_KEYWORD", VStr "scaphandre");
     ("MONITORING_START_DELAY", VFloat 1.0%float);
     ("MONITORING_END_DELAY", VFloat 1.0%float);
     ("DATA_DIR_PATH", VPath ["data"]);
     ("CONFIG_FILE_PATH", VPath ["config"; "config.ini"])].
Proof.
  change Config.config with (list_to_map (M := gmap string pyval)
    (reverse
    [("SAMPLE_FREQUENCY_NANO_SECONDS", VInt 10000000);
     ("LLM_SERVICE_KEYWORD", VStr "ollamaserve");
     ("MONITORING_SERVICE_KEYWORD", VStr "scaphandre");
     ("MONITORING_START_DELAY", VFloat 1.0%float);
     ("MONITORING_END_DELAY", VFloat 1.0%float);
     ("DATA_DIR_PATH", VPath ["data"]);
     ("CONFIG_FILE_PATH", VPath ["config"; "config.ini"])])).
  rewrite map_to_list_to_map.
  - apply reverse_Permutation.
  - apply (bool_decide_unpack _). by vm_compute.
Qed.

Lemma Config_init_data fs :
  Config.__init__ fs =
  match fs !! ["data"] with
  | None => (Returns Config.config, <[["data"] := Dir]> fs)
  | Some Dir => (Returns Config.config, fs)
  | Some (File _) => (Raises (FileExistsError ["data"]), fs)
  end.
Proof.
  unfold Config.__init__, Config._init_paths, bind, lift, ret.
  rewrite config_data_dir_path. cbn [foldr]. unfold bind, ret.
  rewrite mkdir_data. by destruct (fs !! ["data"]) as [[]|].
Qed.

(** ** The fields of a result *)

Lemma result_dict_fields (model_name created_at total_duration load_duration
    prompt_token_length prompt_duration response_token_length response_duration
    prompt response : pyval) :
  let r := result_dict model_name created_at total_duration load_duration
             prompt_token_length prompt_duration response_token_length
             response_duration prompt response in
  r !! "model_name" = Some model_name ∧
  r !! "created_at" = Some created_at ∧
  r !! "total_duration" = Some total_duration ∧
  r !! "load_duration" = Some load_duration ∧
  r !! "prompt_token_length" = Some prompt_token_length ∧
  r !! "prompt_duration" = Some prompt_duration ∧
  r !! "response_token_length" = Some response_token_length ∧
  r !! "response_duration" = Some response_duration ∧
  r !! "prompt" = Some prompt ∧
  r !! "response" = Some response.
Proof. cbv zeta. repeat (split; [reflexivity|]). reflexivity. Qed.

(** ** The status check *)

Lemma raise_for_status_error response :
  400 ≤ status_code response < 600 → is_Some (raise_for_status response).
Proof.
  intros [Hlo Hhi]. unfold raise_for_status.
  destruct (Z.ltb_spec (status_code response) 500).
  - replace (400 <=? status_code response)%Z with true by (symmetry; by apply Z.leb_le).
    cbn [andb]. eauto.
  - replace (status_code response <? 500)%Z with false by (symmetry; by apply Z.ltb_ge).
    rewrite andb_false_r.
    replace (500 <=? status_code response)%Z with true by (symmetry; by apply Z.leb_le).
    replace (status_code response <? 600)%Z with true by (symmetry; by apply Z.ltb_lt).
    cbn [andb]. eauto.
Qed.

Lemma raise_for_status_pass response :
  ¬ (400 ≤ status_code response < 600) → raise_for_status response = None.
Proof.
  intros Hout. unfold raise_for_status.
  destruct (Z.leb_spec 400 (status_code response)),
    (Z.ltb_spec (status_code response) 500),
    (Z.leb_spec 500 (status_code response)),
    (Z.ltb_spec (status_code response) 600);
    cbn [andb]; try reflexivity; lia.
Qed.

(** ** Requests that fail *)

(** C1, as the specification states it, fails: with no server listening,
    and with a server answering 503, the call returns [None] to its caller
    and raises nothing; and a 304 answer is not taken for a failed request
    at all, the call going on to decode its empty body. *)
Lemma call_api_request_failure_is_swallowed :
  LLMAPIClient.call_api Samples.json_loads Config.config Samples.refuses
    "Say hi" None false (Samples.start Samples.ollama_client)
  = (Returns VNone,
     after_request (Samples.start Samples.ollama_client) "Say hi" None false
       ["Request failed: Connection refused"]) ∧
  LLMAPIClient.call_api Samples.json_loads Config.config
    (Samples.answers {| status_code := 503; reason := "Service Unavailable";
                        url := "http://localhost:11434/api/chat";
                        text := EmptyString |})
    "Say hi" None false (Samples.start Samples.ollama_client)
  = (Returns VNone,
     after_request (Samples.start Samples.ollama_client) "Say hi" None false
       ["Request failed: 503 Server Error: Service Unavailable for url: http://localhost:11434/api/chat"]) ∧
  LLMAPIClient.call_api Samples.json_loads Config.config
    (Samples.answers {| status_code := 304; reason := "Not Modified";
                        url := "http://localhost:11434/api/chat";
                        text := EmptyString |})
    "Say hi" None false (Samples.start Samples.ollama_client)
  = (Raises JSONDecodeError,
     after_request (Samples.start Samples.ollama_client) "Say hi" None false []).
Proof.
  split; [vm_compute; reflexivity|]. split; vm_compute; reflexivity.
Qed.

(** ** Services other than ollama *)

(** C2: for a service other than [ollama], once the request has succeeded
    and its body is decoded, the test [llm_service in
    config.OPENAI_API_COMPATIBLE_SERVICES] reads an attribute that [Config]
    does not define and the call raises [AttributeError]; so no such call
    returns, neither from the OpenAI-compatible branch nor by falling
    through. *)
Theorem call_api_other_service_raises_AttributeError
    (json_loads : string → option pyval)
    (network : string → pyval → post_result)
    (prompt : string) (role : option string) (stream : bool)
    (st : LLMAPIClient.process) (response : Response) (j : pyval) :
  LLMAPIClient.llm_service (LLMAPIClient.self st) ≠ "ollama" →
  request_result network (LLMAPIClient.self st) prompt role stream = inr response →
  json_loads (text response) = Some j →
  Config.config !! "OPENAI_API_COMPATIBLE_SERVICES" = None ∧
  LLMAPIClient.call_api json_loads Config.config network prompt role stream st
  = (Raises (AttributeError "Config" "OPENAI_API_COMPATIBLE_SERVICES"),
     after_request st prompt role stream []) ∧
  ∀ v, fst (LLMAPIClient.call_api json_loads Config.config network prompt role stream st)
       ≠ Returns v.
Proof.
  intros Hsvc Hreq Hjson.
  pose proof (call_api_no_services json_loads Config.config network
                prompt role stream st response j Hsvc Hreq Hjson config_no_services) as Hcall.
  split; [apply config_no_services|]. split; [exact Hcall|].
  intros v. by rewrite Hcall.
Qed.

Lemma call_api_other_service_raises_AttributeError_witness :
  LLMAPIClient.call_api Samples.json_loads Config.config
    (Samples.answers (Samples.ok_response Samples.openai_text))
    "Say hi" None false (Samples.start Samples.openai_client)
  = (Raises (AttributeError "Config" "OPENAI_API_COMPATIBLE_SERVICES"),
     after_request (Samples.start Samples.openai_client) "Say hi" None false []).
Proof.
  apply (call_api_other_service_raises_AttributeError Samples.json_loads
           (Samples.answers (Samples.ok_response Samples.openai_text))
           "Say hi" None false (Samples.start Samples.openai_client)
           (Samples.ok_response Samples.openai_text) Samples.openai_json).
  - discriminate.
  - reflexivity.
  - vm_compute. reflexivity.
Defined.

(** The same call under the two configurations: a client of the service
    [openai], answered with a body of the OpenAI-compatible shape, gets
    [AttributeError] under the configuration of the repository, which
    lists no service, and its result under a configuration that lists
    the service. *)
Theorem call_api_openai_service_crashes :
  LLMAPIClient.call_api Samples.json_loads Config.config
    (Samples.answers (Samples.ok_response Samples.openai_text))
    "Say hi" None false (Samples.start Samples.openai_client)
  = (Raises (AttributeError "Config" "OPENAI_API_COMPATIBLE_SERVICES"),
     after_request (Samples.start Samples.openai_client) "Say hi" None false []) ∧
  LLMAPIClient.call_api Samples.json_loads Samples.config_with_services
    (Samples.answers (Samples.ok_response Samples.openai_text))
    "Say hi" None false (Samples.start Samples.openai_client)
  = (Returns (VDict (result_dict (VStr "llama3") (VInt 1717800000) VNone VNone
                       (VInt 3) VNone (VInt 2) VNone (VStr "Say hi") (VStr "Hi!"))),
     after_request (Samples.start Samples.openai_client) "Say hi" None false []).
Proof. split; vm_compute; reflexivity. Qed.

(** ** The ollama branch *)

(** C3: for the service [ollama] and a decoded body holding every
    expected key, with durations that are not null and a [message] whose
    [content] is a string, the call returns a dictionary whose [response]
    is that content and whose other fields are the corresponding fields of
    the body; none of the four durations is [None]. *)
Theorem call_api_ollama_valid_response
    (json_loads : string → option pyval) (config : gmap string pyval)
    (network : string → pyval → post_result)
    (prompt : string) (role : option string) (stream : bool)
    (st : LLMAPIClient.process) (response : Response)
    (d m : gmap string pyval)
    (created_at total_duration load_duration prompt_eval_count
     prompt_eval_duration eval_count eval_duration : pyval) (content : string) :
  LLMAPIClient.llm_service (LLMAPIClient.self st) = "ollama" →
  request_result network (LLMAPIClient.self st) prompt role stream = inr response →
  json_loads (text response) = Some (VDict d) →
  d !! "created_at" = Some created_at →
  d !! "total_duration" = Some total_duration →
  d !! "load_duration" = Some load_duration →
  d !! "prompt_eval_count" = Some prompt_eval_count →
  d !! "prompt_eval_duration" = Some prompt_eval_duration →
  d !! "eval_count" = Some eval_count →
  d !! "eval_duration" = Some eval_duration →
  d !! "message" = Some (VDict m) →
  m !! "content" = Some (VStr content) →
  total_duration ≠ VNone → load_duration ≠ VNone →
  prompt_eval_duration ≠ VNone → eval_duration ≠ VNone →
  ∃ result : gmap string pyval,
    LLMAPIClient.call_api json_loads config network prompt role stream st
    = (Returns (VDict result), after_request st prompt role stream []) ∧
    result !! "response" = Some (VStr content) ∧
    result !! "created_at" = Some created_at ∧
    result !! "total_duration" = Some total_duration ∧
    result !! "load_duration" = Some load_duration ∧
    result !! "prompt_token_length" = Some prompt_eval_count ∧
    result !! "prompt_duration" = Some prompt_eval_duration ∧
    result !! "response_token_length" = Some eval_count ∧
    result !! "response_duration" = Some eval_duration ∧
    result !! "model_name"
      = Some (VStr (LLMAPIClient.model_name (LLMAPIClient.self st))) ∧
    result !! "prompt" = Some (VStr prompt) ∧
    result !! "total_duration" ≠ Some VNone ∧
    result !! "load_duration" ≠ Some VNone ∧
    result !! "prompt_duration" ≠ Some VNone ∧
    result !! "response_duration" ≠ Some VNone.
Proof.
  intros Hsvc Hreq Hjson Hcreated Htotal Hload Hpcount Hpdur Hcount Hdur Hmessage
    Hcontent Ntotal Nload Npdur Ndur.
  exists (result_dict (VStr (LLMAPIClient.model_name (LLMAPIClient.self st)))
            created_at total_duration load_duration prompt_eval_count
            prompt_eval_duration eval_count eval_duration (VStr prompt) (VStr content)).
  split.
  { rewrite (call_api_ollama json_loads config network prompt role stream st
               response d Hsvc Hreq Hjson).
    rewrite Hmessage. cbn [default from_option id]. unfold ollama_data.
    by rewrite Hcreated, Htotal, Hload, Hpcount, Hpdur, Hcount, Hdur, Hcontent. }
  destruct (result_dict_fields (VStr (LLMAPIClient.model_name (LLMAPIClient.self st)))
              created_at total_duration load_duration prompt_eval_count
              prompt_eval_duration eval_count eval_duration (VStr prompt) (VStr content))
    as (Hf1 & Hf2 & Hf3 & Hf4 & Hf5 & Hf6 & Hf7 & Hf8 & Hf9 & Hf10).
  rewrite Hf1, Hf2, Hf3, Hf4, Hf5, Hf6, Hf7, Hf8, Hf9, Hf10.
  repeat split; congruence.
Qed.

Lemma call_api_ollama_valid_response_witness :
  ∃ result : gmap string pyval,
    LLMAPIClient.call_api Samples.json_loads Config.config
      (Samples.answers (Samples.ok_response Samples.ollama_text))
      "Say hi" None false (Samples.start Samples.ollama_client)
    = (Returns (VDict result),
       after_request (Samples.start Samples.ollama_client) "Say hi" None false []) ∧
    result !! "response" = Some (VStr "Hi!") ∧
    result !! "total_duration" = Some (VInt 100).
Proof.
  destruct (call_api_ollama_valid_response Samples.json_loads Config.config
              (Samples.answers (Samples.ok_response Samples.ollama_text))
              "Say hi" None false (Samples.start Samples.ollama_client)
              (Samples.ok_response Samples.ollama_text)
              (list_to_map
                 [("created_at", VStr "2024-01-01T00:00:00Z");
                  ("total_duration", VInt 100);
                  ("load_duration", VInt 10);
                  ("prompt_eval_count", VInt 3);
                  ("prompt_eval_duration", VInt 5);
                  ("eval_count", VInt 2);
                  ("eval_duration", VInt 7);
                  ("message", VDict (list_to_map [("content", VStr "Hi!")]))])
              (list_to_map [("content", VStr "Hi!")])
              (VStr "2024-01-01T00:00:00Z") (VInt 100) (VInt 10) (VInt 3) (VInt 5)
              (VInt 2) (VInt 7) "Hi!")
    as (result & Hcall & Hresponse & _ & Htotal & _);
    try reflexivity; try discriminate.
  exists result. auto.
Defined.

(** C7, as the code has it: on the ollama branch every field of a decoded
    dictionary is read with [get], so an absent key is not an error. With
    a [message] object in the body the call returns its dictionary, the
    field of each absent key being [None] ([response] too, when [message]
    has no [content]); with no [message] the call raises the
    [AttributeError] of [None.get], which nothing catches. *)
Theorem call_api_ollama_missing_keys
    (json_loads : string → option pyval) (config : gmap string pyval)
    (network : string → pyval → post_result)
    (prompt : string) (role : option string) (stream : bool)
    (st : LLMAPIClient.process) (response : Response) (d : gmap string pyval) :
  LLMAPIClient.llm_service (LLMAPIClient.self st) = "ollama" →
  request_result network (LLMAPIClient.self st) prompt role stream = inr response →
  json_loads (text response) = Some (VDict d) →
  (∀ m, d !! "message" = Some (VDict m) →
     LLMAPIClient.call_api json_loads config network prompt role stream st
     = (Returns (ollama_data (LLMAPIClient.model_name (LLMAPIClient.self st)) prompt d m),
        after_request st prompt role stream [])) ∧
  (d !! "message" = None →
     LLMAPIClient.call_api json_loads config network prompt role stream st
     = (Raises (AttributeError "NoneType" "get"), after_request st prompt role stream [])).
Proof.
  intros Hsvc Hreq Hjson.
  pose proof (call_api_ollama json_loads config network prompt role stream st
                response d Hsvc Hreq Hjson) as Hcall.
  split.
  - intros m Hm. by rewrite Hcall, Hm.
  - intros Hm. by rewrite Hcall, Hm.
Qed.

Lemma call_api_ollama_missing_keys_witness :
  LLMAPIClient.call_api Samples.json_loads Config.config
    (Samples.answers (Samples.ok_response Samples.no_message_text))
    "Say hi" None false (Samples.start Samples.ollama_client)
  = (Raises (AttributeError "NoneType" "get"),
     after_request (Samples.start Samples.ollama_client) "Say hi" None false []).
Proof.
  apply (call_api_ollama_missing_keys Samples.json_loads Config.config
           (Samples.answers (Samples.ok_response Samples.no_message_text))
           "Say hi" None false (Samples.start Samples.ollama_client)
           (Samples.ok_response Samples.no_message_text)
           (list_to_map
              [("created_at", VStr "2024-01-01T00:00:00Z");
               ("total_duration", VInt 100)]));
    reflexivity.
Defined.

(** C7, as the specification states it, fails: an ollama body without
    [total_duration] makes the call return a result, with [None] for that
    field, and an ollama body without [message] makes it raise
    [AttributeError], an exception of Python that nothing catches. *)
Lemma call_api_ollama_missing_key_is_no_shape_error :
  LLMAPIClient.call_api Samples.json_loads Config.config
    (Samples.answers (Samples.ok_response Samples.no_total_text))
    "Say hi" None false (Samples.start Samples.ollama_client)
  = (Returns (VDict (result_dict (VStr "llama3") (VStr "2024-01-01T00:00:00Z")
                       VNone (VInt 10) (VInt 3) (VInt 5) (VInt 2) (VInt 7)
                       (VStr "Say hi") (VStr "Hi!"))),
     after_request (Samples.start Samples.ollama_client) "Say hi" None false []) ∧
  LLMAPIClient.call_api Samples.json_loads Config.config
    (Samples.answers (Samples.ok_response Samples.no_message_text))
    "Say hi" None false (Samples.start Samples.ollama_client)
  = (Raises (AttributeError "NoneType" "get"),
     after_request (Samples.start Samples.ollama_client) "Say hi" None false []) ∧
  class_name (AttributeError "NoneType" "get") ≠ "ResponseShapeError".
Proof.
  split; [vm_compute; reflexivity|]. split; [vm_compute; reflexivity|discriminate].
Qed.

(** ** Bodies that are not JSON *)

(** C6, as the code has it: when the body of the response is not JSON,
    the [json.JSONDecodeError] of [json.loads] leaves [call_api] uncaught,
    after the request was posted; the call returns nothing, [None]
    included. *)
Theorem call_api_malformed_json_raises_JSONDecodeError
    (json_loads : string → option pyval) (config : gmap string pyval)
    (network : string → pyval → post_result)
    (prompt : string) (role : option string) (stream : bool)
    (st : LLMAPIClient.process) (response : Response) :
  request_result network (LLMAPIClient.self st) prompt role stream = inr response →
  json_loads (text response) = None →
  LLMAPIClient.call_api json_loads config network prompt role stream st
  = (Raises JSONDecodeError, after_request st prompt role stream []) ∧
  ∀ v, fst (LLMAPIClient.call_api json_loads config network prompt role stream st)
       ≠ Returns v.
Proof.
  intros Hreq Hjson.
  pose proof (call_api_not_decoded json_loads config network prompt role stream st
                response Hreq Hjson) as Hcall.
  split; [exact Hcall|]. intros v. by rewrite Hcall.
Qed.

Lemma call_api_malformed_json_raises_JSONDecodeError_witness :
  LLMAPIClient.call_api Samples.json_loads Config.config
    (Samples.answers (Samples.ok_response Samples.html_text))
    "Say hi" None false (Samples.start Samples.ollama_client)
  = (Raises JSONDecodeError,
     after_request (Samples.start Samples.ollama_client) "Say hi" None false []).
Proof.
  apply (call_api_malformed_json_raises_JSONDecodeError Samples.json_loads Config.config
           (Samples.answers (Samples.ok_response Samples.html_text))
           "Say hi" None false (Samples.start Samples.ollama_client)
           (Samples.ok_response Samples.html_text));
    reflexivity.
Defined.

(** C6, as the specification states it, fails: on a body that is not
    JSON the exception leaving the call is [json.JSONDecodeError], raised
    by the library and caught nowhere, not a [ResponseParseError]. *)
Lemma call_api_malformed_json_is_no_parse_error :
  ∃ e,
    LLMAPIClient.call_api Samples.json_loads Config.config
      (Samples.answers (Samples.ok_response Samples.html_text))
      "Say hi" None false (Samples.start Samples.ollama_client)
    = (Raises e,
       after_request (Samples.start Samples.ollama_client) "Say hi" None false []) ∧
    class_name e = "JSONDecodeError" ∧
    class_name e ≠ "ResponseParseError".
Proof.
  exists JSONDecodeError.
  split; [vm_compute; reflexivity|]. split; [reflexivity|discriminate].
Qed.

(** ** Services that are not recognised *)

(** C5, as the code has it: where the configuration defines the set of
    compatible services, a service that is neither [ollama] nor in the set
    takes no branch; no error is raised for it, and the call returns the
    dictionary that [data] was bound to before the request, which is the
    body of the request. *)
Theorem call_api_unrecognised_service_returns_request_body
    (json_loads : string → option pyval) (config : gmap string pyval)
    (network : string → pyval → post_result)
    (prompt : string) (role : option string) (stream : bool)
    (st : LLMAPIClient.process) (response : Response) (j : pyval) :
  LLMAPIClient.llm_service (LLMAPIClient.self st) ≠ "ollama" →
  listed config (LLMAPIClient.llm_service (LLMAPIClient.self st)) false →
  request_result network (LLMAPIClient.self st) prompt role stream = inr response →
  json_loads (text response) = Some j →
  LLMAPIClient.call_api json_loads config network prompt role stream st
  = (Returns (request_body (LLMAPIClient.self st) prompt role stream),
     after_request st prompt role stream []).
Proof. intros Hsvc Hlisted Hreq Hjson. by eapply call_api_unlisted. Qed.

Lemma call_api_unrecognised_service_returns_request_body_witness :
  LLMAPIClient.call_api Samples.json_loads Samples.config_with_services
    (Samples.answers (Samples.ok_response Samples.openai_text))
    "Say hi" None false (Samples.start Samples.other_client)
  = (Returns (request_body Samples.other_client "Say hi" None false),
     after_request (Samples.start Samples.other_client) "Say hi" None false []).
Proof.
  apply (call_api_unrecognised_service_returns_request_body Samples.json_loads
           Samples.config_with_services
           (Samples.answers (Samples.ok_response Samples.openai_text))
           "Say hi" None false (Samples.start Samples.other_client)
           (Samples.ok_response Samples.openai_text) Samples.openai_json).
  - discriminate.
  - exists (VList [VStr "openai"; VStr "llamafile"]). split; reflexivity.
  - reflexivity.
  - vm_compute. reflexivity.
Defined.

(** C5, as the specification states it, fails: for the service [mistral],
    which is neither [ollama] nor a compatible service, the call returns
    the body of its own request where the configuration defines the set
    of compatible services, and raises the [AttributeError] of C2 under
    the configuration of the repository; in neither case does an
    [UnsupportedServiceError] come out. *)
Lemma call_api_unrecognised_service_is_no_error :
  LLMAPIClient.call_api Samples.json_loads Samples.config_with_services
    (Samples.answers (Samples.ok_response Samples.openai_text))
    "Say hi" None false (Samples.start Samples.other_client)
  = (Returns (VDict (list_to_map
       [("model", VStr "llama3");
        ("messages", VList [VDict (list_to_map
           [("role", VStr "user"); ("content", VStr "Say hi")])]);
        ("stream", VBool false)])),
     after_request (Samples.start Samples.other_client) "Say hi" None false []) ∧
  LLMAPIClient.call_api Samples.json_loads Config.config
    (Samples.answers (Samples.ok_response Samples.openai_text))
    "Say hi" None false (Samples.start Samples.other_client)
  = (Raises (AttributeError "Config" "OPENAI_API_COMPATIBLE_SERVICES"),
     after_request (Samples.start Samples.other_client) "Say hi" None false []) ∧
  class_name (AttributeError "Config" "OPENAI_API_COMPATIBLE_SERVICES")
  ≠ "UnsupportedServiceError".
Proof.
  split; [vm_compute; reflexivity|]. split; [vm_compute; reflexivity|discriminate].
Qed.

(** ** The prompt in the result *)

(** A value returned on the ollama branch is the dictionary of the branch. *)
Lemma call_api_ollama_returns
    (json_loads : string → option pyval) (config : gmap string pyval)
    (network : string → pyval → post_result)
    (prompt : string) (role : option string) (stream : bool)
    (st : LLMAPIClient.process) (response : Response) (v : pyval) :
  LLMAPIClient.llm_service (LLMAPIClient.self st) = "ollama" →
  request_result network (LLMAPIClient.self st) prompt role stream = inr response →
  fst (LLMAPIClient.call_api json_loads config network prompt role stream st) = Returns v →
  ∃ d m, v = ollama_data (LLMAPIClient.model_name (LLMAPIClient.self st)) prompt d m.
Proof.
  intros Hsvc Hreq.
  destruct (json_loads (text response)) as [j|] eqn:Hjson.
  - destruct j as [| | | | | |d|].
    7: { rewrite (call_api_ollama json_loads config network prompt role stream st
                    response d Hsvc Hreq Hjson).
         destruct (default VNone (d !! "message")); try discriminate.
         intros [= <-]. eauto. }
    all: by rewrite (call_api_ollama_not_dict json_loads config network prompt role
                       stream st response _ Hsvc Hreq Hjson).
  - by rewrite (call_api_not_decoded json_loads config network prompt role stream st
                  response Hreq Hjson).
Qed.

(** C8: whenever a call returns from one of the two branches, that of
    [ollama] or that of a service in the set of compatible services, the
    value returned is a dictionary whose [prompt] is the prompt of the
    call, as it was given. *)
Theorem call_api_result_holds_prompt
    (json_loads : string → option pyval) (config : gmap string pyval)
    (network : string → pyval → post_result)
    (prompt : string) (role : option string) (stream : bool)
    (st : LLMAPIClient.process) (response : Response) (v : pyval) :
  request_result network (LLMAPIClient.self st) prompt role stream = inr response →
  LLMAPIClient.llm_service (LLMAPIClient.self st) = "ollama" ∨
  listed config (LLMAPIClient.llm_service (LLMAPIClient.self st)) true →
  fst (LLMAPIClient.call_api json_loads config network prompt role stream st) = Returns v →
  ∃ result : gmap string pyval,
    v = VDict result ∧ result !! "prompt" = Some (VStr prompt).
Proof.
  intros Hreq Hbranch Hret.
  destruct (decide (LLMAPIClient.llm_service (LLMAPIClient.self st) = "ollama"))
    as [Hsvc|Hsvc].
  - destruct (call_api_ollama_returns _ _ _ _ _ _ _ _ _ Hsvc Hreq Hret) as (d & m & ->).
    eexists. split; [reflexivity|]. apply result_dict_fields.
  - destruct Hbranch as [?|Hlisted]; [done|].
    destruct (call_api_openai_returns _ _ _ _ _ _ _ _ _ Hsvc Hreq Hlisted Hret)
      as (created_at & ptl & rtl & content & ->).
    eexists. split; [reflexivity|]. apply result_dict_fields.
Qed.

Lemma call_api_result_holds_prompt_witness :
  ∃ result : gmap string pyval,
    VDict (result_dict (VStr "llama3") (VStr "2024-01-01T00:00:00Z") (VInt 100)
             (VInt 10) (VInt 3) (VInt 5) (VInt 2) (VInt 7) (VStr "Say hi") (VStr "Hi!"))
    = VDict result ∧
    result !! "prompt" = Some (VStr "Say hi").
Proof.
  apply (call_api_result_holds_prompt Samples.json_loads Config.config
           (Samples.answers (Samples.ok_response Samples.ollama_text))
           "Say hi" None false (Samples.start Samples.ollama_client)
           (Samples.ok_response Samples.ollama_text)).
  - reflexivity.
  - left. reflexivity.
  - vm_compute. reflexivity.
Defined.

(** ** The data directory *)

(** C9: unless a regular file stands at its path, [Config()] returns
    with the data directory in place: it is created when missing, no other
    path is touched, nothing that existed is lost, a directory already
    there is no error and leaves the file system as it was, and a second
    initialisation changes nothing more. *)
Theorem Config_init_creates_data_dir (fs : gmap (list string) fsnode) :
  (∀ content, fs !! ["data"] ≠ Some (File content)) →
  ∃ fs',
    Config.__init__ fs = (Returns Config.config, fs') ∧
    fs' !! ["data"] = Some Dir ∧
    (fs !! ["data"] = None → fs' = <[["data"] := Dir]> fs) ∧
    (fs !! ["data"] = Some Dir → fs' = fs) ∧
    (∀ p, p ≠ ["data"] → fs' !! p = fs !! p) ∧
    fs ⊆ fs' ∧
    Config.__init__ fs' = (Returns Config.config, fs').
Proof.
  intros Hfile. rewrite Config_init_data.
  destruct (fs !! ["data"]) as [[|content]|] eqn:Hdata.
  - exists fs. rewrite Config_init_data, Hdata. by repeat split.
  - by destruct (Hfile content).
  - exists (<[["data"] := Dir]> fs).
    rewrite Config_init_data, lookup_insert_eq.
    repeat split; try done.
    + intros p Hp. by rewrite lookup_insert_ne.
    + by apply insert_subseteq.
Qed.

Lemma Config_init_creates_data_dir_witness :
  ∃ fs',
    Config.__init__ (<[["data"; "run1.csv"] := File "1,2"]> (<[["data"] := Dir]> ∅))
    = (Returns Config.config, fs') ∧
    fs' !! ["data"; "run1.csv"] = Some (File "1,2").
Proof.
  destruct (Config_init_creates_data_dir
              (<[["data"; "run1.csv"] := File "1,2"]> (<[["data"] := Dir]> ∅)))
    as (fs' & Hinit & _ & _ & _ & Hother & _).
  - intros content. vm_compute. discriminate.
  - exists fs'. split; [exact Hinit|]. rewrite Hother; [|discriminate].
    vm_compute. reflexivity.
Defined.

(** ** The client across calls *)

Lemma call_api_self
    (json_loads : string → option pyval) (config : gmap string pyval)
    (network : string → pyval → post_result)
    (prompt : string) (role : option string) (stream : bool)
    (st : LLMAPIClient.process) :
  LLMAPIClient.self
    (snd (LLMAPIClient.call_api json_loads config network prompt role stream st))
  = LLMAPIClient.self st.
Proof.
  destruct (call_api_state json_loads config network prompt role stream st)
    as [lines ->].
  reflexivity.
Qed.

Lemma run_calls_self
    (json_loads : string → option pyval) (config : gmap string pyval)
    (calls : list LLMAPIClient.call) (st : LLMAPIClient.process) :
  LLMAPIClient.self (snd (LLMAPIClient.run_calls json_loads config calls st))
  = LLMAPIClient.self st.
Proof.
  revert st. induction calls as [|c calls IH]; intros st; [reflexivity|].
  cbn [LLMAPIClient.run_calls].
  pose proof (call_api_self json_loads config (LLMAPIClient.call_network c)
                (LLMAPIClient.call_prompt c) (LLMAPIClient.call_role c)
                (LLMAPIClient.call_stream c) st) as Hcall.
  destruct (LLMAPIClient.call_api _ _ _ _ _ _ st) as [o st'].
  specialize (IH st').
  destruct (LLMAPIClient.run_calls json_loads config calls st') as [os st''].
  cbn [snd] in *. congruence.
Qed.

(** C10: after any sequence of calls on a constructed client, whatever
    the network answered and whether the calls returned or raised, the
    client is the one that was constructed: its service, URL, model name
    and default role are those given to the constructor. *)
Theorem run_calls_leaves_client_unchanged
    (json_loads : string → option pyval) (config : gmap string pyval)
    (llm_service api_url model_name : string) (role : option string)
    (calls : list LLMAPIClient.call)
    (printed : list string) (sent : list (string * pyval)) :
  let client := LLMAPIClient.__init__ llm_service api_url model_name role in
  let final :=
    snd (LLMAPIClient.run_calls json_loads config calls
           {| LLMAPIClient.self := client; LLMAPIClient.stdout := printed;
              LLMAPIClient.posted := sent |}) in
  LLMAPIClient.self final = client ∧
  LLMAPIClient.llm_service (LLMAPIClient.self final) = llm_service ∧
  LLMAPIClient.api_url (LLMAPIClient.self final) = api_url ∧
  LLMAPIClient.model_name (LLMAPIClient.self final) = model_name ∧
  LLMAPIClient.role (LLMAPIClient.self final) = default "user" role.
Proof.
  intros client final.
  assert (LLMAPIClient.self final = client) as ->; [|done].
  unfold final. by rewrite run_calls_self.
Qed.

(** ** One request per call *)

(** After a request that went through, nothing was printed. *)
Lemma call_api_answered_state
    (json_loads : string → option pyval) (config : gmap string pyval)
    (network : string → pyval → post_result)
    (prompt : string) (role : option string) (stream : bool)
    (st : LLMAPIClient.process) (response : Response) :
  request_result network (LLMAPIClient.self st) prompt role stream = inr response →
  snd (LLMAPIClient.call_api json_loads config network prompt role stream st)
  = after_request st prompt role stream [].
Proof.
  intros Hreq. run_call_api Hreq role.
  all: rewrite Hreq; cbn [LLMAPIClient.self LLMAPIClient.stdout LLMAPIClient.posted].
  all: repeat (case_match; simplify_eq; try reflexivity).
Qed.

(** X1: whatever the outcome of a call (a result, [None] or an exception,
    for any service and any configuration), it has posted one request and
    only one, to the URL of the client, before anything else is decided:
    there is no retry, and a service that is not recognised costs a
    request all the same. *)
Theorem call_api_posts_one_request
    (json_loads : string → option pyval) (config : gmap string pyval)
    (network : string → pyval → post_result)
    (prompt : string) (role : option string) (stream : bool)
    (st : LLMAPIClient.process) :
  LLMAPIClient.posted
    (snd (LLMAPIClient.call_api json_loads config network prompt role stream st))
  = (LLMAPIClient.posted st ++
     [(LLMAPIClient.api_url (LLMAPIClient.self st),
       request_body (LLMAPIClient.self st) prompt role stream)])%list.
Proof.
  destruct (call_api_state json_loads config network prompt role stream st)
    as [lines ->].
  reflexivity.
Qed.

(** X2: the body posted holds the model of the client, the [stream] flag
    as given, and one message whose content is the prompt and whose role is
    the [role] argument when there is one, the role of the client
    otherwise; for a client constructed without a role, that is [user]. *)
Theorem call_api_request_body_fields
    (json_loads : string → option pyval) (config : gmap string pyval)
    (network : string → pyval → post_result)
    (llm_service api_url model_name : string) (client_role : option string)
    (prompt : string) (role : option string) (stream : bool)
    (printed : list string) (sent : list (string * pyval)) :
  let client := LLMAPIClient.__init__ llm_service api_url model_name client_role in
  let st := {| LLMAPIClient.self := client; LLMAPIClient.stdout := printed;
               LLMAPIClient.posted := sent |} in
  ∃ body message : gmap string pyval,
    LLMAPIClient.posted
      (snd (LLMAPIClient.call_api json_loads config network prompt role stream st))
    = (sent ++ [(api_url, VDict body)])%list ∧
    body !! "model" = Some (VStr model_name) ∧
    body !! "stream" = Some (VBool stream) ∧
    body !! "messages" = Some (VList [VDict message]) ∧
    message !! "content" = Some (VStr prompt) ∧
    message !! "role" = Some (VStr (default (default "user" client_role) role)) ∧
    dom body = list_to_set ["model"; "messages"; "stream"] ∧
    dom message = list_to_set ["role"; "content"].
Proof.
  intros client st.
  destruct (call_api_state json_loads config network prompt role stream st)
    as [lines ->].
  unfold after_request, request_body. cbn [LLMAPIClient.posted LLMAPIClient.self st
    client LLMAPIClient.__init__ LLMAPIClient.api_url LLMAPIClient.model_name
    LLMAPIClient.role].
  eexists _, _. split; [reflexivity|].
  repeat (split; [reflexivity|]).
  split; by rewrite dom_list_to_map_L.
Qed.

(** X3: a call prints nothing unless its request failed: when the server
    answers with a status outside 400 to 599, the standard output is left
    as it was, whatever the body and whatever the call then does. *)
Theorem call_api_prints_nothing_on_answer
    (json_loads : string → option pyval) (config : gmap string pyval)
    (network : string → pyval → post_result)
    (prompt : string) (role : option string) (stream : bool)
    (st : LLMAPIClient.process) (response : Response) :
  network (LLMAPIClient.api_url (LLMAPIClient.self st))
    (request_body (LLMAPIClient.self st) prompt role stream) = PostReturns response →
  ¬ (400 ≤ status_code response < 600) →
  LLMAPIClient.stdout
    (snd (LLMAPIClient.call_api json_loads config network prompt role stream st))
  = LLMAPIClient.stdout st.
Proof.
  intros Hsent Hstatus.
  rewrite (call_api_answered_state json_loads config network prompt role stream st response).
  - unfold after_request. cbn [LLMAPIClient.stdout]. apply app_nil_r.
  - unfold request_result. rewrite Hsent. cbn [checked].
    by rewrite raise_for_status_pass.
Qed.

Lemma call_api_prints_nothing_on_answer_witness :
  LLMAPIClient.stdout
    (snd (LLMAPIClient.call_api Samples.json_loads Config.config
            (Samples.answers (Samples.ok_response Samples.html_text))
            "Say hi" None false (Samples.start Samples.ollama_client)))
  = LLMAPIClient.stdout (Samples.start Samples.ollama_client).
Proof.
  apply (call_api_prints_nothing_on_answer Samples.json_loads Config.config
           (Samples.answers (Samples.ok_response Samples.html_text))
           "Say hi" None false (Samples.start Samples.ollama_client)
           (Samples.ok_response Samples.html_text)).
  - reflexivity.
  - cbn. lia.
Defined.

(** What a call can return: [None] after a failed request, a dictionary
    after an answered one. *)
Lemma call_api_returned
    (json_loads : string → option pyval) (config : gmap string pyval)
    (network : string → pyval → post_result)
    (prompt : string) (role : option string) (stream : bool)
    (st : LLMAPIClient.process) (v : pyval) :
  fst (LLMAPIClient.call_api json_loads config network prompt role stream st) = Returns v →
  (v = VNone ∧
   ∃ e, request_result network (LLMAPIClient.self st) prompt role stream = inl e) ∨
  (∃ d response, v = VDict d ∧
   request_result network (LLMAPIClient.self st) prompt role stream = inr response).
Proof.
  destruct (request_result network (LLMAPIClient.self st) prompt role stream)
    as [e|response] eqn:Hreq.
  { rewrite (call_api_failed _ _ _ _ _ _ _ _ Hreq). intros [= <-]. left. eauto. }
  intros Hret. right.
  enough (∃ d, v = VDict d) as [d ->] by eauto.
  revert Hret. run_call_api Hreq role.
  all: rewrite Hreq; cbn [LLMAPIClient.self LLMAPIClient.stdout LLMAPIClient.posted].
  all: repeat (case_match; simplify_eq; try discriminate).
  all: cbn [fst]; intros [= <-]; eauto.
Qed.

(** X4: [None] is returned for a failed request and for nothing else: a
    call that returns [None] had its request fail, and every other value a
    call returns is a dictionary, built after an answered request. *)
Theorem call_api_None_means_request_failed
    (json_loads : string → option pyval) (config : gmap string pyval)
    (network : string → pyval → post_result)
    (prompt : string) (role : option string) (stream : bool)
    (st : LLMAPIClient.process) (v : pyval) :
  fst (LLMAPIClient.call_api json_loads config network prompt role stream st) = Returns v →
  (v = VNone ↔
   ∃ e, request_result network (LLMAPIClient.self st) prompt role stream = inl e) ∧
  (v ≠ VNone → ∃ d, v = VDict d).
Proof.
  intros Hret.
  destruct (call_api_returned _ _ _ _ _ _ _ _ Hret)
    as [[-> [e He]]|(d & response & -> & Hr)].
  - split; [|done]. split; eauto.
  - split; [|eauto]. split; [done|]. intros [e He]. congruence.
Qed.

Lemma call_api_None_means_request_failed_witness :
  (VNone = VNone ↔
   ∃ e, request_result Samples.refuses Samples.ollama_client "Say hi" None false = inl e) ∧
  (VNone ≠ VNone → ∃ d, VNone = VDict d).
Proof.
  apply (call_api_None_means_request_failed Samples.json_loads Config.config
           Samples.refuses "Say hi" None false (Samples.start Samples.ollama_client)).
  vm_compute. reflexivity.
Defined.

(** ** The ollama branch, whatever the body *)

(** The outcome of a call by a client of the service [ollama]. *)
Lemma call_api_ollama_outcome
    (json_loads : string → option pyval) (config : gmap string pyval)
    (network : string → pyval → post_result)
    (prompt : string) (role : option string) (stream : bool)
    (st : LLMAPIClient.process) :
  LLMAPIClient.llm_service (LLMAPIClient.self st) = "ollama" →
  fst (LLMAPIClient.call_api json_loads config network prompt role stream st)
  = ollama_outcome json_loads (LLMAPIClient.model_name (LLMAPIClient.self st)) prompt
      (request_result network (LLMAPIClient.self st) prompt role stream).
Proof.
  intros Hsvc. unfold ollama_outcome.
  destruct (request_result network (LLMAPIClient.self st) prompt role stream)
    as [e|response] eqn:Hreq.
  { by rewrite (call_api_failed _ _ _ _ _ _ _ _ Hreq). }
  destruct (json_loads (text response)) as [j|] eqn:Hjson.
  - destruct j as [| | | | | |d|].
    7: by rewrite (call_api_ollama json_loads config network prompt role stream st
                     response d Hsvc Hreq Hjson).
    all: by rewrite (call_api_ollama_not_dict json_loads config network prompt role
                       stream st response _ Hsvc Hreq Hjson).
  - by rewrite (call_api_not_decoded json_loads config network prompt role stream st
                  response Hreq Hjson).
Qed.

(** X5: for the service [ollama], a body that decodes to JSON other than
    an object (an array, a string, a number, a boolean, [null]) does not
    give a result: the first [get] raises an [AttributeError] naming the
    type of the decoded value, and nothing catches it. *)
Theorem call_api_ollama_body_not_object
    (json_loads : string → option pyval) (config : gmap string pyval)
    (network : string → pyval → post_result)
    (prompt : string) (role : option string) (stream : bool)
    (st : LLMAPIClient.process) (response : Response) (j : pyval) :
  LLMAPIClient.llm_service (LLMAPIClient.self st) = "ollama" →
  request_result network (LLMAPIClient.self st) prompt role stream = inr response →
  json_loads (text response) = Some j →
  (∀ d, j ≠ VDict d) →
  LLMAPIClient.call_api json_loads config network prompt role stream st
  = (Raises (AttributeError (type_name j) "get"), after_request st prompt role stream []).
Proof. intros Hsvc Hreq Hjson Hj. by eapply call_api_ollama_not_dict. Qed.

Lemma call_api_ollama_body_not_object_witness :
  LLMAPIClient.call_api Cases.json_loads Config.config
    (Samples.answers (Samples.ok_response Cases.array_text))
    "Say hi" None false (Samples.start Samples.ollama_client)
  = (Raises (AttributeError "list" "get"),
     after_request (Samples.start Samples.ollama_client) "Say hi" None false []).
Proof.
  apply (call_api_ollama_body_not_object Cases.json_loads Config.config
           (Samples.answers (Samples.ok_response Cases.array_text))
           "Say hi" None false (Samples.start Samples.ollama_client)
           (Samples.ok_response Cases.array_text) Cases.array_json).
  - reflexivity.
  - reflexivity.
  - reflexivity.
  - discriminate.
Defined.

(** X6: for the service [ollama] and a body that is an object, a
    [message] that is present but is not itself an object ([null], a
    string, a number, ...) makes the call raise an [AttributeError] naming
    the type of that value; the other fields of the body, read before it,
    do not matter. *)
Theorem call_api_ollama_message_not_object
    (json_loads : string → option pyval) (config : gmap string pyval)
    (network : string → pyval → post_result)
    (prompt : string) (role : option string) (stream : bool)
    (st : LLMAPIClient.process) (response : Response)
    (d : gmap string pyval) (message : pyval) :
  LLMAPIClient.llm_service (LLMAPIClient.self st) = "ollama" →
  request_result network (LLMAPIClient.self st) prompt role stream = inr response →
  json_loads (text response) = Some (VDict d) →
  d !! "message" = Some message →
  (∀ m, message ≠ VDict m) →
  LLMAPIClient.call_api json_loads config network prompt role stream st
  = (Raises (AttributeError (type_name message) "get"),
     after_request st prompt role stream []).
Proof.
  intros Hsvc Hreq Hjson Hmessage Hm.
  rewrite (call_api_ollama json_loads config network prompt role stream st
             response d Hsvc Hreq Hjson).
  rewrite Hmessage. cbn [default from_option id].
  destruct message; try reflexivity. by destruct (Hm d0).
Qed.

Lemma call_api_ollama_message_not_object_witness :
  LLMAPIClient.call_api Cases.json_loads Config.config
    (Samples.answers (Samples.ok_response Cases.null_message_text))
    "Say hi" None false (Samples.start Samples.ollama_client)
  = (Raises (AttributeError "NoneType" "get"),
     after_request (Samples.start Samples.ollama_client) "Say hi" None false []).
Proof.
  apply (call_api_ollama_message_not_object Cases.json_loads Config.config
           (Samples.answers (Samples.ok_response Cases.null_message_text))
           "Say hi" None false (Samples.start Samples.ollama_client)
           (Samples.ok_response Cases.null_message_text)
           (list_to_map [("total_duration", VInt 100); ("message", VNone)]) VNone).
  - reflexivity.
  - reflexivity.
  - reflexivity.
  - reflexivity.
  - discriminate.
Defined.

(** X7: a client of the service [ollama] never reads the configuration:
    under any two configurations a call returns or raises the same and
    leaves the same state. The attribute missing from [Config] is of no
    consequence to it. *)
Theorem call_api_ollama_ignores_config
    (json_loads : string → option pyval) (config1 config2 : gmap string pyval)
    (network : string → pyval → post_result)
    (prompt : string) (role : option string) (stream : bool)
    (st : LLMAPIClient.process) :
  LLMAPIClient.llm_service (LLMAPIClient.self st) = "ollama" →
  LLMAPIClient.call_api json_loads config1 network prompt role stream st
  = LLMAPIClient.call_api json_loads config2 network prompt role stream st.
Proof.
  intros Hsvc.
  pose proof (call_api_ollama_outcome json_loads config1 network prompt role stream st Hsvc)
    as H1.
  pose proof (call_api_ollama_outcome json_loads config2 network prompt role stream st Hsvc)
    as H2.
  pose proof (call_api_state json_loads config1 network prompt role stream st) as [l1 S1].
  pose proof (call_api_state json_loads config2 network prompt role stream st) as [l2 S2].
  destruct (request_result network (LLMAPIClient.self st) prompt role stream)
    as [e|response] eqn:Hreq.
  - by rewrite !(call_api_failed _ _ _ _ _ _ _ _ Hreq).
  - pose proof (call_api_answered_state json_loads config1 network prompt role stream
                  st response Hreq) as A1.
    pose proof (call_api_answered_state json_loads config2 network prompt role stream
                  st response Hreq) as A2.
    destruct (LLMAPIClient.call_api json_loads config1 network prompt role stream st),
      (LLMAPIClient.call_api json_loads config2 network prompt role stream st).
    cbn [fst snd] in *. congruence.
Qed.

Lemma call_api_ollama_ignores_config_witness :
  LLMAPIClient.call_api Samples.json_loads Config.config
    (Samples.answers (Samples.ok_response Samples.ollama_text))
    "Say hi" None false (Samples.start Samples.ollama_client)
  = LLMAPIClient.call_api Samples.json_loads Samples.config_with_services
      (Samples.answers (Samples.ok_response Samples.ollama_text))
      "Say hi" None false (Samples.start Samples.ollama_client).
Proof.
  apply (call_api_ollama_ignores_config Samples.json_loads Config.config
           Samples.config_with_services
           (Samples.answers (Samples.ok_response Samples.ollama_text))
           "Say hi" None false (Samples.start Samples.ollama_client)).
  reflexivity.
Defined.

(** X8: for a client of the service [ollama], the [role] and [stream]
    arguments reach the result through the request only: two calls with
    the same prompt whose requests end the same way (the same exception,
    or the same response) return or raise the same, whatever their roles
    and stream flags. *)
Theorem call_api_ollama_role_and_stream_only_sent
    (json_loads : string → option pyval) (config : gmap string pyval)
    (network1 network2 : string → pyval → post_result)
    (prompt : string) (role1 role2 : option string) (stream1 stream2 : bool)
    (st : LLMAPIClient.process) :
  LLMAPIClient.llm_service (LLMAPIClient.self st) = "ollama" →
  request_result network1 (LLMAPIClient.self st) prompt role1 stream1
  = request_result network2 (LLMAPIClient.self st) prompt role2 stream2 →
  fst (LLMAPIClient.call_api json_loads config network1 prompt role1 stream1 st)
  = fst (LLMAPIClient.call_api json_loads config network2 prompt role2 stream2 st).
Proof.
  intros Hsvc Hsame.
  rewrite !call_api_ollama_outcome by done. by rewrite Hsame.
Qed.

Lemma call_api_ollama_role_and_stream_only_sent_witness :
  fst (LLMAPIClient.call_api Samples.json_loads Config.config
         (Samples.answers (Samples.ok_response Samples.ollama_text))
         "Say hi" None false (Samples.start Samples.ollama_client))
  = fst (LLMAPIClient.call_api Samples.json_loads Config.config
           (Samples.answers (Samples.ok_response Samples.ollama_text))
           "Say hi" (Some "system") true (Samples.start Samples.ollama_client)).
Proof.
  apply (call_api_ollama_role_and_stream_only_sent Samples.json_loads Config.config
           (Samples.answers (Samples.ok_response Samples.ollama_text))
           (Samples.answers (Samples.ok_response Samples.ollama_text))
           "Say hi" None (Some "system") false true
           (Samples.start Samples.ollama_client)).
  - reflexivity.
  - reflexivity.
Defined.

(** ** One shape of result *)

Lemma result_dict_dom (model_name created_at total_duration load_duration
    prompt_token_length prompt_duration response_token_length response_duration
    prompt response : pyval) :
  dom (result_dict model_name created_at total_duration load_duration
         prompt_token_length prompt_duration response_token_length
         response_duration prompt response)
  = list_to_set result_keys.
Proof. unfold result_dict. by rewrite dom_list_to_map_L. Qed.

(** X9: the two branches build one shape of record: a value returned from
    the ollama branch or from the branch of the compatible services is a
    dictionary with the same ten keys, no more and no fewer, and its
    [model_name] is the model of the client, not one read from the
    response. *)
Theorem call_api_result_has_ten_keys
    (json_loads : string → option pyval) (config : gmap string pyval)
    (network : string → pyval → post_result)
    (prompt : string) (role : option string) (stream : bool)
    (st : LLMAPIClient.process) (response : Response) (v : pyval) :
  request_result network (LLMAPIClient.self st) prompt role stream = inr response →
  LLMAPIClient.llm_service (LLMAPIClient.self st) = "ollama" ∨
  listed config (LLMAPIClient.llm_service (LLMAPIClient.self st)) true →
  fst (LLMAPIClient.call_api json_loads config network prompt role stream st) = Returns v →
  ∃ result : gmap string pyval,
    v = VDict result ∧
    dom result = list_to_set result_keys ∧
    size result = 10%nat ∧
    result !! "model_name"
    = Some (VStr (LLMAPIClient.model_name (LLMAPIClient.self st))).
Proof.
  intros Hreq Hbranch Hret.
  assert (size (list_to_set (C := gset string) result_keys) = 10%nat) as Hsize
    by (by vm_compute).
  destruct (decide (LLMAPIClient.llm_service (LLMAPIClient.self st) = "ollama"))
    as [Hsvc|Hsvc].
  - destruct (call_api_ollama_returns _ _ _ _ _ _ _ _ _ Hsvc Hreq Hret) as (d & m & ->).
    eexists. split; [reflexivity|].
    rewrite <-size_dom, result_dict_dom. split; [reflexivity|]. split; [exact Hsize|].
    apply result_dict_fields.
  - destruct Hbranch as [Heq|Hlisted]; [exfalso; exact (Hsvc Heq)|].
    destruct (call_api_openai_returns _ _ _ _ _ _ _ _ _ Hsvc Hreq Hlisted Hret)
      as (created_at & ptl & rtl & content & ->).
    eexists. split; [reflexivity|].
    rewrite <-size_dom, result_dict_dom. split; [reflexivity|]. split; [exact Hsize|].
    apply result_dict_fields.
Qed.

Lemma call_api_result_has_ten_keys_witness :
  ∃ result : gmap string pyval,
    VDict (result_dict (VStr "llama3") (VInt 1717800000) VNone VNone
             (VInt 3) VNone (VInt 2) VNone (VStr "Say hi") (VStr "Hi!"))
    = VDict result ∧
    dom result = list_to_set result_keys ∧
    size result = 10%nat ∧
    result !! "model_name" = Some (VStr "llama3").
Proof.
  apply (call_api_result_has_ten_keys Samples.json_loads Samples.config_with_services
           (Samples.answers (Samples.ok_response Samples.openai_text))
           "Say hi" None false (Samples.start Samples.openai_client)
           (Samples.ok_response Samples.openai_text)).
  - reflexivity.
  - right. exists (VList [VStr "openai"; VStr "llamafile"]). split; reflexivity.
  - vm_compute. reflexivity.
Defined.

(** ** The branch of the compatible services *)

(** X10: where the configuration lists the service, every value the call
    returns has [None] for its four durations, whatever the body holds:
    the branch reads no duration from the response. *)
Theorem call_api_openai_durations_are_None
    (json_loads : string → option pyval) (config : gmap string pyval)
    (network : string → pyval → post_result)
    (prompt : string) (role : option string) (stream : bool)
    (st : LLMAPIClient.process) (response : Response) (v : pyval) :
  LLMAPIClient.llm_service (LLMAPIClient.self st) ≠ "ollama" →
  listed config (LLMAPIClient.llm_service (LLMAPIClient.self st)) true →
  request_result network (LLMAPIClient.self st) prompt role stream = inr response →
  fst (LLMAPIClient.call_api json_loads config network prompt role stream st) = Returns v →
  ∃ result : gmap string pyval,
    v = VDict result ∧
    result !! "total_duration" = Some VNone ∧
    result !! "load_duration" = Some VNone ∧
    result !! "prompt_duration" = Some VNone ∧
    result !! "response_duration" = Some VNone.
Proof.
  intros Hsvc Hlisted Hreq Hret.
  destruct (call_api_openai_returns _ _ _ _ _ _ _ _ _ Hsvc Hreq Hlisted Hret)
    as (created_at & ptl & rtl & content & ->).
  eexists. split; [reflexivity|].
  destruct (result_dict_fields (VStr (LLMAPIClient.model_name (LLMAPIClient.self st)))
              created_at VNone VNone ptl VNone rtl VNone (VStr prompt) content)
    as (_ & _ & H3 & H4 & _ & H6 & _ & H8 & _).
  auto.
Qed.

Lemma call_api_openai_durations_are_None_witness :
  ∃ result : gmap string pyval,
    VDict (result_dict (VStr "llama3") (VInt 1717800000) VNone VNone
             (VInt 3) VNone (VInt 2) VNone (VStr "Say hi") (VStr "Hi!"))
    = VDict result ∧
    result !! "total_duration" = Some VNone ∧
    result !! "load_duration" = Some VNone ∧
    result !! "prompt_duration" = Some VNone ∧
    result !! "response_duration" = Some VNone.
Proof.
  apply (call_api_openai_durations_are_None Samples.json_loads
           Samples.config_with_services
           (Samples.answers (Samples.ok_response Samples.openai_text))
           "Say hi" None false (Samples.start Samples.openai_client)
           (Samples.ok_response Samples.openai_text)).
  - discriminate.
  - exists (VList [VStr "openai"; VStr "llamafile"]). split; reflexivity.
  - reflexivity.
  - vm_compute. reflexivity.
Defined.

(** X11: where the configuration lists the service, a body with a [usage]
    object and a first choice holding a [message] object gives a result
    whose [response] is the content of that message, whose token counts
    are [prompt_tokens] and [completion_tokens] of [usage] and whose
    [created_at] is [created] of the body, each [None] when its key is
    absent; choices after the first are not read. *)
Theorem call_api_openai_extraction
    (json_loads : string → option pyval) (config : gmap string pyval)
    (network : string → pyval → post_result)
    (prompt : string) (role : option string) (stream : bool)
    (st : LLMAPIClient.process) (response : Response)
    (d usage choice m : gmap string pyval) (rest : list pyval) :
  LLMAPIClient.llm_service (LLMAPIClient.self st) ≠ "ollama" →
  listed config (LLMAPIClient.llm_service (LLMAPIClient.self st)) true →
  request_result network (LLMAPIClient.self st) prompt role stream = inr response →
  json_loads (text response) = Some (VDict d) →
  d !! "usage" = Some (VDict usage) →
  d !! "choices" = Some (VList (VDict choice :: rest)) →
  choice !! "message" = Some (VDict m) →
  ∃ result : gmap string pyval,
    LLMAPIClient.call_api json_loads config network prompt role stream st
    = (Returns (VDict result), after_request st prompt role stream []) ∧
    result !! "response" = Some (default VNone (m !! "content")) ∧
    result !! "prompt_token_length" = Some (default VNone (usage !! "prompt_tokens")) ∧
    result !! "response_token_length"
    = Some (default VNone (usage !! "completion_tokens")) ∧
    result !! "created_at" = Some (default VNone (d !! "created")) ∧
    result !! "prompt" = Some (VStr prompt).
Proof.
  intros Hsvc Hlisted Hreq Hjson Husage Hchoices Hm.
  eexists. split.
  { by eapply call_api_openai. }
  destruct (result_dict_fields (VStr (LLMAPIClient.model_name (LLMAPIClient.self st)))
              (default VNone (d !! "created")) VNone VNone
              (default VNone (usage !! "prompt_tokens")) VNone
              (default VNone (usage !! "completion_tokens")) VNone
              (VStr prompt) (default VNone (m !! "content")))
    as (_ & H2 & _ & _ & H5 & _ & H7 & _ & H9 & H10).
  auto.
Qed.

Lemma call_api_openai_extraction_witness :
  ∃ result : gmap string pyval,
    LLMAPIClient.call_api Samples.json_loads Samples.config_with_services
      (Samples.answers (Samples.ok_response Samples.openai_text))
      "Say hi" None false (Samples.start Samples.openai_client)
    = (Returns (VDict result),
       after_request (Samples.start Samples.openai_client) "Say hi" None false []) ∧
    result !! "response" = Some (VStr "Hi!") ∧
    result !! "prompt_token_length" = Some (VInt 3) ∧
    result !! "response_token_length" = Some (VInt 2).
Proof.
  destruct (call_api_openai_extraction Samples.json_loads Samples.config_with_services
              (Samples.answers (Samples.ok_response Samples.openai_text))
              "Say hi" None false (Samples.start Samples.openai_client)
              (Samples.ok_response Samples.openai_text)
              (list_to_map
                 [("created", VInt 1717800000);
                  ("usage", VDict (list_to_map
                     [("prompt_tokens", VInt 3); ("completion_tokens", VInt 2)]));
                  ("choices", VList [VDict (list_to_map
                     [("message", VDict (list_to_map [("content", VStr "Hi!")]))])])])
              (list_to_map [("prompt_tokens", VInt 3); ("completion_tokens", VInt 2)])
              (list_to_map [("message", VDict (list_to_map [("content", VStr "Hi!")]))])
              (list_to_map [("content", VStr "Hi!")]) [])
    as (result & Hcall & H1 & H2 & H3 & _).
  - discriminate.
  - exists (VList [VStr "openai"; VStr "llamafile"]). split; reflexivity.
  - reflexivity.
  - reflexivity.
  - reflexivity.
  - reflexivity.
  - reflexivity.
  - exists result. auto.
Defined.

(** X12: where the configuration lists the service, a body that is an
    object without [usage] gives no result: [get] is called on the [None]
    that the missing key reads as, and the call raises [AttributeError]
    before it looks at the choices. *)
Theorem call_api_openai_missing_usage
    (json_loads : string → option pyval) (config : gmap string pyval)
    (network : string → pyval → post_result)
    (prompt : string) (role : option string) (stream : bool)
    (st : LLMAPIClient.process) (response : Response) (d : gmap string pyval) :
  LLMAPIClient.llm_service (LLMAPIClient.self st) ≠ "ollama" →
  listed config (LLMAPIClient.llm_service (LLMAPIClient.self st)) true →
  request_result network (LLMAPIClient.self st) prompt role stream = inr response →
  json_loads (text response) = Some (VDict d) →
  d !! "usage" = None →
  LLMAPIClient.call_api json_loads config network prompt role stream st
  = (Raises (AttributeError "NoneType" "get"), after_request st prompt role stream []).
Proof.
  intros Hsvc%String.eqb_neq (services & Hcfg & Hin) Hreq Hjson Husage.
  run_call_api Hreq role.
  all: rewrite Hreq, Hjson;
    cbn [LLMAPIClient.self LLMAPIClient.stdout LLMAPIClient.posted]; rewrite Hsvc.
  all: unfold Config.getattr; rewrite Hcfg, Hin; cbn [py_get].
  all: rewrite Husage; reflexivity.
Qed.

Lemma call_api_openai_missing_usage_witness :
  LLMAPIClient.call_api Cases.json_loads Samples.config_with_services
    (Samples.answers (Samples.ok_response Cases.no_usage_text))
    "Say hi" None false (Samples.start Samples.openai_client)
  = (Raises (AttributeError "NoneType" "get"),
     after_request (Samples.start Samples.openai_client) "Say hi" None false []).
Proof.
  apply (call_api_openai_missing_usage Cases.json_loads Samples.config_with_services
           (Samples.answers (Samples.ok_response Cases.no_usage_text))
           "Say hi" None false (Samples.start Samples.openai_client)
           (Samples.ok_response Cases.no_usage_text)
           (list_to_map
              [("created", VInt 1717800000);
               ("choices", VList [VDict (list_to_map
                  [("message", VDict (list_to_map [("content", VStr "Hi!")]))])])])).
  - discriminate.
  - exists (VList [VStr "openai"; VStr "llamafile"]). split; reflexivity.
  - reflexivity.
  - reflexivity.
  - reflexivity.
Defined.

(** X13: where the configuration lists the service and the body has its
    [usage] object, the choices decide: an empty list of choices makes
    the call raise [IndexError], and a body without [choices] makes it
    raise [TypeError], [None] not being subscriptable. *)
Theorem call_api_openai_no_choice
    (json_loads : string → option pyval) (config : gmap string pyval)
    (network : string → pyval → post_result)
    (prompt : string) (role : option string) (stream : bool)
    (st : LLMAPIClient.process) (response : Response) (d usage : gmap string pyval) :
  LLMAPIClient.llm_service (LLMAPIClient.self st) ≠ "ollama" →
  listed config (LLMAPIClient.llm_service (LLMAPIClient.self st)) true →
  request_result network (LLMAPIClient.self st) prompt role stream = inr response →
  json_loads (text response) = Some (VDict d) →
  d !! "usage" = Some (VDict usage) →
  (d !! "choices" = Some (VList []) →
   LLMAPIClient.call_api json_loads config network prompt role stream st
   = (Raises (IndexError "list index out of range"),
      after_request st prompt role stream [])) ∧
  (d !! "choices" = None →
   LLMAPIClient.call_api json_loads config network prompt role stream st
   = (Raises (TypeError "'NoneType' object is not subscriptable"),
      after_request st prompt role stream [])).
Proof.
  intros Hsvc%String.eqb_neq (services & Hcfg & Hin) Hreq Hjson Husage.
  split; intros Hchoices.
  all: run_call_api Hreq role.
  all: rewrite Hreq, Hjson;
    cbn [LLMAPIClient.self LLMAPIClient.stdout LLMAPIClient.posted]; rewrite Hsvc.
  all: unfold Config.getattr; rewrite Hcfg, Hin; cbn [py_get].
  all: rewrite Husage, Hchoices; reflexivity.
Qed.

Lemma call_api_openai_no_choice_witness :
  LLMAPIClient.call_api Cases.json_loads Samples.config_with_services
    (Samples.answers (Samples.ok_response Cases.empty_choices_text))
    "Say hi" None false (Samples.start Samples.openai_client)
  = (Raises (IndexError "list index out of range"),
     after_request (Samples.start Samples.openai_client) "Say hi" None false []).
Proof.
  apply (call_api_openai_no_choice Cases.json_loads Samples.config_with_services
           (Samples.answers (Samples.ok_response Cases.empty_choices_text))
           "Say hi" None false (Samples.start Samples.openai_client)
           (Samples.ok_response Cases.empty_choices_text)
           (list_to_map
              [("created", VInt 1717800000);
               ("usage", VDict (list_to_map
                  [("prompt_tokens", VInt 3); ("completion_tokens", VInt 0)]));
               ("choices", VList [])])
           (list_to_map [("prompt_tokens", VInt 3); ("completion_tokens", VInt 0)])).
  - discriminate.
  - exists (VList [VStr "openai"; VStr "llamafile"]). split; reflexivity.
  - reflexivity.
  - reflexivity.
  - reflexivity.
  - reflexivity.
Defined.

(** ** Initialising the configuration, whatever the file system *)

(** X14: when a regular file stands at the path of the data directory,
    [Config()] raises [FileExistsError] ([exist_ok] forgives an existing
    directory only) and leaves the file system, that file included, as it
    was; [import config] then fails. *)
Theorem Config_init_data_is_a_file (fs : gmap (list string) fsnode) (content : string) :
  fs !! ["data"] = Some (File content) →
  Config.__init__ fs = (Raises (FileExistsError ["data"]), fs).
Proof. intros Hdata. by rewrite Config_init_data, Hdata. Qed.

Lemma Config_init_data_is_a_file_witness :
  Config.__init__ (<[["data"] := File "notes"]> ∅)
  = (Raises (FileExistsError ["data"]), <[["data"] := File "notes"]> ∅).
Proof.
  apply (Config_init_data_is_a_file (<[["data"] := File "notes"]> ∅) "notes").
  reflexivity.
Defined.

(** X15: on every file system, whether [Config()] returns or raises,
    nothing that existed is removed or replaced, at most the one path of
    the data directory is added (the directory of the configuration file
    is never created), and an object that is returned has the attributes
    of [__init__], which do not depend on the file system. *)
Theorem Config_init_is_not_destructive
    (fs fs' : gmap (list string) fsnode) (o : outcome (gmap string pyval)) :
  Config.__init__ fs = (o, fs') →
  fs ⊆ fs' ∧
  dom fs' ⊆ dom fs ∪ {[ ["data"] ]} ∧
  fs' !! ["config"] = fs !! ["config"] ∧
  fs' !! ["config"; "config.ini"] = fs !! ["config"; "config.ini"] ∧
  ∀ self, o = Returns self → self = Config.config.
Proof.
  rewrite Config_init_data.
  destruct (fs !! ["data"]) as [[|content]|] eqn:Hdata; intros [= <- <-].
  - repeat split; try done; [apply union_subseteq_l|]. by intros self [= <-].
  - repeat split; try done. apply union_subseteq_l.
  - repeat split.
    + by apply insert_subseteq.
    + by rewrite dom_insert_L, (comm_L (∪)).
    + by rewrite lookup_insert_ne.
    + by rewrite lookup_insert_ne.
    + by intros self [= <-].
Qed.

Lemma Config_init_is_not_destructive_witness :
  (∅ : gmap (list string) fsnode) ⊆ <[["data"] := Dir]> ∅ ∧
  dom (<[["data"] := Dir]> (∅ : gmap (list string) fsnode)) ⊆
    dom (∅ : gmap (list string) fsnode) ∪ {[ ["data"] ]} ∧
  (<[["data"] := Dir]> ∅ : gmap (list string) fsnode) !! ["config"]
  = (∅ : gmap (list string) fsnode) !! ["config"] ∧
  (<[["data"] := Dir]> ∅ : gmap (list string) fsnode) !! ["config"; "config.ini"]
  = (∅ : gmap (list string) fsnode) !! ["config"; "config.ini"] ∧
  ∀ self, Returns Config.config = Returns self → self = Config.config.
Proof.
  apply (Config_init_is_not_destructive ∅ (<[["data"] := Dir]> ∅)
           (Returns Config.config)).
  reflexivity.
Defined.

(** ** Sequences of calls *)

Lemma client_only_ret {A} (a : A) : client_only (ret a).
Proof. by intros st1 st2 Hself. Qed.

Lemma client_only_lift {A} (o : outcome A) : client_only (lift o).
Proof. by intros st1 st2 Hself. Qed.

Lemma client_only_gets {A} (f : LLMAPIClient.t → A) :
  client_only (gets (λ st, f (LLMAPIClient.self st))).
Proof. intros st1 st2 Hself. unfold gets. cbn [fst snd]. by rewrite Hself. Qed.

Lemma client_only_print (line : string) : client_only (LLMAPIClient.print line).
Proof. by intros st1 st2 Hself. Qed.

Lemma client_only_post_and_check (network : string → pyval → post_result)
    (url : string) (data : pyval) :
  client_only (LLMAPIClient.post_and_check network url data).
Proof. by intros st1 st2 Hself. Qed.

Lemma client_only_bind {A B} (m : M LLMAPIClient.process A)
    (k : A → M LLMAPIClient.process B) :
  client_only m → (∀ a, client_only (k a)) → client_only (bind m k).
Proof.
  intros Hm Hk st1 st2 Hself. unfold bind.
  destruct (Hm st1 st2 Hself) as [Hfst Hsnd].
  destruct (m st1) as [o1 st1'], (m st2) as [o2 st2']. cbn [fst snd] in *. subst o2.
  destruct o1 as [a|e]; [by apply Hk|done].
Qed.

(** What a call returns or raises depends on the client, not on what was
    printed or posted before. *)
Lemma call_api_client_only
    (json_loads : string → option pyval) (config : gmap string pyval)
    (network : string → pyval → post_result)
    (prompt : string) (role : option string) (stream : bool) :
  client_only (LLMAPIClient.call_api json_loads config network prompt role stream).
Proof.
  unfold LLMAPIClient.call_api.
  repeat first
    [ apply client_only_ret
    | apply client_only_lift
    | apply client_only_gets
    | apply client_only_print
    | apply client_only_post_and_check
    | apply client_only_bind; [|intros ?]
    | match goal with
      | |- client_only (match ?x with _ => _ end) => destruct x
      end ].
Qed.

Lemma call_api_outcome_of_client
    (json_loads : string → option pyval) (config : gmap string pyval)
    (network : string → pyval → post_result)
    (prompt : string) (role : option string) (stream : bool)
    (st1 st2 : LLMAPIClient.process) :
  LLMAPIClient.self st1 = LLMAPIClient.self st2 →
  fst (LLMAPIClient.call_api json_loads config network prompt role stream st1)
  = fst (LLMAPIClient.call_api json_loads config network prompt role stream st2).
Proof. intros Hself. by apply call_api_client_only. Qed.

Lemma run_calls_cons
    (json_loads : string → option pyval) (config : gmap string pyval)
    (c : LLMAPIClient.call) (calls : list LLMAPIClient.call)
    (st : LLMAPIClient.process) :
  LLMAPIClient.run_calls json_loads config (c :: calls) st
  = (fst (LLMAPIClient.call_api json_loads config (LLMAPIClient.call_network c)
            (LLMAPIClient.call_prompt c) (LLMAPIClient.call_role c)
            (LLMAPIClient.call_stream c) st)
     :: fst (LLMAPIClient.run_calls json_loads config calls
               (snd (LLMAPIClient.call_api json_loads config
                       (LLMAPIClient.call_network c) (LLMAPIClient.call_prompt c)
                       (LLMAPIClient.call_role c) (LLMAPIClient.call_stream c) st))),
     snd (LLMAPIClient.run_calls json_loads config calls
            (snd (LLMAPIClient.call_api json_loads config
                    (LLMAPIClient.call_network c) (LLMAPIClient.call_prompt c)
                    (LLMAPIClient.call_role c) (LLMAPIClient.call_stream c) st)))).
Proof.
  cbn [LLMAPIClient.run_calls].
  destruct (LLMAPIClient.call_api _ _ _ _ _ _ st) as [o st'].
  cbn [fst snd]. by destruct (LLMAPIClient.run_calls json_loads config calls st').
Qed.

(** X16: a sequence of calls posts one request per call, in the order of
    the calls, each to the URL of the client and with the body of its
    call; calls that fail or raise are no exception, and none is sent
    twice. *)
Theorem run_calls_posts_one_request_per_call
    (json_loads : string → option pyval) (config : gmap string pyval)
    (calls : list LLMAPIClient.call) (st : LLMAPIClient.process) :
  LLMAPIClient.posted (snd (LLMAPIClient.run_calls json_loads config calls st))
  = (LLMAPIClient.posted st ++ map (request_of (LLMAPIClient.self st)) calls)%list ∧
  length (fst (LLMAPIClient.run_calls json_loads config calls st)) = length calls.
Proof.
  revert st. induction calls as [|c calls IH]; intros st.
  - split; [|reflexivity]. cbn [LLMAPIClient.run_calls snd map]. by rewrite app_nil_r.
  - rewrite run_calls_cons. cbn [fst snd length map].
    destruct (IH (snd (LLMAPIClient.call_api json_loads config
                         (LLMAPIClient.call_network c) (LLMAPIClient.call_prompt c)
                         (LLMAPIClient.call_role c) (LLMAPIClient.call_stream c) st)))
      as [-> ->].
    split; [|reflexivity].
    destruct (call_api_state json_loads config (LLMAPIClient.call_network c)
                (LLMAPIClient.call_prompt c) (LLMAPIClient.call_role c)
                (LLMAPIClient.call_stream c) st) as [lines ->].
    unfold after_request, request_of. cbn [LLMAPIClient.posted LLMAPIClient.self].
    by rewrite <-app_assoc.
Qed.

(** X17: the calls of a sequence do not influence one another: what each
    returns or raises is what it would return or raise were it the only
    call made on the client, the network answering it the same. *)
Theorem run_calls_outcomes_are_independent
    (json_loads : string → option pyval) (config : gmap string pyval)
    (calls : list LLMAPIClient.call) (st : LLMAPIClient.process) :
  fst (LLMAPIClient.run_calls json_loads config calls st)
  = map (λ c, fst (LLMAPIClient.call_api json_loads config
                     (LLMAPIClient.call_network c) (LLMAPIClient.call_prompt c)
                     (LLMAPIClient.call_role c) (LLMAPIClient.call_stream c) st))
      calls.
Proof.
  revert st. induction calls as [|c calls IH]; intros st; [reflexivity|].
  rewrite run_calls_cons. cbn [fst map]. f_equal.
  rewrite IH. apply map_ext. intros c'.
  apply call_api_outcome_of_client.
  destruct (call_api_state json_loads config (LLMAPIClient.call_network c)
              (LLMAPIClient.call_prompt c) (LLMAPIClient.call_role c)
              (LLMAPIClient.call_stream c) st) as [lines ->].
  reflexivity.
Qed.

(** X18: the lines a sequence of calls prints are those of its failed
    requests, one each and in order; the calls whose request was answered
    print nothing. *)
Theorem run_calls_prints_failed_requests
    (json_loads : string → option pyval) (config : gmap string pyval)
    (calls : list LLMAPIClient.call) (st : LLMAPIClient.process) :
  LLMAPIClient.stdout (snd (LLMAPIClient.run_calls json_loads config calls st))
  = (LLMAPIClient.stdout st ++
     omap (λ c,
            match request_result (LLMAPIClient.call_network c) (LLMAPIClient.self st)
                    (LLMAPIClient.call_prompt c) (LLMAPIClient.call_role c)
                    (LLMAPIClient.call_stream c) with
            | inl e => Some ("Request failed: " +:+ e)
            | inr _ => None
            end) calls)%list.
Proof.
  revert st. induction calls as [|c calls IH]; intros st.
  - cbn [LLMAPIClient.run_calls snd omap list_omap]. by rewrite app_nil_r.
  - rewrite run_calls_cons. cbn [snd]. rewrite IH.
    rewrite call_api_self. cbn [omap list_omap].
    destruct (request_result (LLMAPIClient.call_network c) (LLMAPIClient.self st)
                (LLMAPIClient.call_prompt c) (LLMAPIClient.call_role c)
                (LLMAPIClient.call_stream c)) as [e|response] eqn:Hreq.
    + rewrite (call_api_failed _ _ _ _ _ _ _ _ Hreq).
      unfold after_request. cbn [snd LLMAPIClient.stdout]. by rewrite <-app_assoc.
    + rewrite (call_api_answered_state _ _ _ _ _ _ _ _ Hreq).
      unfold after_request. cbn [LLMAPIClient.stdout]. by rewrite app_nil_r.
Qed.

(** ** Requests that fail, in full *)

(** C1, as the code has it. When [requests.post] raises a
    [RequestException], the call raises nothing: it prints one line,
    [Request failed: ] followed by the [str] of that exception, and
    returns [None]. When the response has a status from 400 to 599, those
    [raise_for_status] rejects, it does the same with the [HTTPError] of
    [raise_for_status], whose [str] gives the status, [Client Error] below
    500 and [Server Error] from 500, the reason and the URL. A response
    with any other status is not a failed request: nothing is printed and
    [None] is not returned. In every case one request was posted and the
    client is left as it was. *)
Theorem call_api_request_failure_returns_None
    (json_loads : string → option pyval) (config : gmap string pyval)
    (network : string → pyval → post_result)
    (prompt : string) (role : option string) (stream : bool)
    (st : LLMAPIClient.process) :
  let sent :=
    network (LLMAPIClient.api_url (LLMAPIClient.self st))
      (request_body (LLMAPIClient.self st) prompt role stream) in
  (∀ e, sent = PostRaises e →
     LLMAPIClient.call_api json_loads config network prompt role stream st
     = (Returns VNone, after_request st prompt role stream ["Request failed: " +:+ e])) ∧
  (∀ response, sent = PostReturns response →
     400 ≤ status_code response < 600 →
     let e :=
       pretty (status_code response)
       +:+ (if (status_code response <? 500)%Z then " Client Error: "
            else " Server Error: ")
       +:+ reason response +:+ " for url: " +:+ url response in
     raise_for_status response = Some e ∧
     LLMAPIClient.call_api json_loads config network prompt role stream st
     = (Returns VNone, after_request st prompt role stream ["Request failed: " +:+ e])) ∧
  (∀ response, sent = PostReturns response →
     ¬ (400 ≤ status_code response < 600) →
     raise_for_status response = None ∧
     fst (LLMAPIClient.call_api json_loads config network prompt role stream st)
     ≠ Returns VNone ∧
     snd (LLMAPIClient.call_api json_loads config network prompt role stream st)
     = after_request st prompt role stream []).
Proof.
  intros sent. split; [|split].
  - intros e Hsent. apply call_api_failed.
    unfold request_result. fold sent. by rewrite Hsent.
  - intros response Hsent [Hlo Hhi] e.
    assert (raise_for_status response = Some e) as Hraise.
    { unfold raise_for_status, e.
      replace (400 <=? status_code response)%Z with true
        by (symmetry; by apply Z.leb_le).
      cbn [andb]. destruct (Z.ltb_spec (status_code response) 500); [reflexivity|].
      replace (500 <=? status_code response)%Z with true
        by (symmetry; by apply Z.leb_le).
      replace (status_code response <? 600)%Z with true
        by (symmetry; by apply Z.ltb_lt).
      reflexivity. }
    split; [exact Hraise|]. apply call_api_failed.
    unfold request_result. fold sent. rewrite Hsent. cbn [checked]. by rewrite Hraise.
  - intros response Hsent Hstatus.
    pose proof (raise_for_status_pass response Hstatus) as Hpass.
    assert (request_result network (LLMAPIClient.self st) prompt role stream
            = inr response) as Hreq.
    { unfold request_result. fold sent. rewrite Hsent. cbn [checked]. by rewrite Hpass. }
    split; [exact Hpass|]. split.
    + intros Hret.
      destruct (call_api_returned _ _ _ _ _ _ _ _ Hret)
        as [[_ [e He]]|(d & response' & Hd & _)]; congruence.
    + exact (call_api_answered_state json_loads config network prompt role stream
               st response Hreq).
Qed.

Lemma call_api_request_failure_returns_None_witness :
  LLMAPIClient.call_api Samples.json_loads Config.config Samples.refuses
    "Say hi" None false (Samples.start Samples.ollama_client)
  = (Returns VNone,
     after_request (Samples.start Samples.ollama_client) "Say hi" None false
       ["Request failed: Connection refused"]) ∧
  LLMAPIClient.call_api Samples.json_loads Config.config
    (Samples.answers {| status_code := 404; reason := "Not Found";
                        url := "http://localhost:11434/api/chat";
                        text := EmptyString |})
    "Say hi" None false (Samples.start Samples.ollama_client)
  = (Returns VNone,
     after_request (Samples.start Samples.ollama_client) "Say hi" None false
       ["Request failed: 404 Client Error: Not Found for url: http://localhost:11434/api/chat"]) ∧
  fst (LLMAPIClient.call_api Samples.json_loads Config.config
         (Samples.answers {| status_code := 304; reason := "Not Modified";
                             url := "http://localhost:11434/api/chat";
                             text := EmptyString |})
         "Say hi" None false (Samples.start Samples.ollama_client))
  ≠ Returns VNone.
Proof.
  split; [|split].
  - destruct (call_api_request_failure_returns_None Samples.json_loads Config.config
                Samples.refuses "Say hi" None false (Samples.start Samples.ollama_client))
      as (Hraised & _ & _).
    apply Hraised. reflexivity.
  - destruct (call_api_request_failure_returns_None Samples.json_loads Config.config
                (Samples.answers {| status_code := 404; reason := "Not Found";
                                    url := "http://localhost:11434/api/chat";
                                    text := EmptyString |})
                "Say hi" None false (Samples.start Samples.ollama_client))
      as (_ & Hrejected & _).
    apply (Hrejected {| status_code := 404; reason := "Not Found";
                        url := "http://localhost:11434/api/chat";
                        text := EmptyString |}).
    + reflexivity.
    + cbn. lia.
  - destruct (call_api_request_failure_returns_None Samples.json_loads Config.config
                (Samples.answers {| status_code := 304; reason := "Not Modified";
                                    url := "http://localhost:11434/api/chat";
                                    text := EmptyString |})
                "Say hi" None false (Samples.start Samples.ollama_client))
      as (_ & _ & Hanswered).
    apply (Hanswered {| status_code := 304; reason := "Not Modified";
                        url := "http://localhost:11434/api/chat";
                        text := EmptyString |}).
    + reflexivity.
    + cbn. lia.
Defined.

(** ** The branch of the compatible services, on a valid body *)

(** C4: for a service that the configuration lists among the compatible
    services and a body of the OpenAI-compatible shape (a [usage] object
    with its two token counts, and a first choice whose [message] has a
    string for [content]), the call returns a result whose [response] is
    that content, whose two token counts are those of [usage], and whose
    four durations are [None]. *)
Theorem call_api_openai_valid_response
    (json_loads : string → option pyval) (config : gmap string pyval)
    (network : string → pyval → post_result)
    (prompt : string) (role : option string) (stream : bool)
    (st : LLMAPIClient.process) (response : Response)
    (d usage choice m : gmap string pyval) (rest : list pyval)
    (prompt_tokens completion_tokens : pyval) (content : string) :
  LLMAPIClient.llm_service (LLMAPIClient.self st) ≠ "ollama" →
  listed config (LLMAPIClient.llm_service (LLMAPIClient.self st)) true →
  request_result network (LLMAPIClient.self st) prompt role stream = inr response →
  json_loads (text response) = Some (VDict d) →
  d !! "usage" = Some (VDict usage) →
  usage !! "prompt_tokens" = Some prompt_tokens →
  usage !! "completion_tokens" = Some completion_tokens →
  d !! "choices" = Some (VList (VDict choice :: rest)) →
  choice !! "message" = Some (VDict m) →
  m !! "content" = Some (VStr content) →
  ∃ result : gmap string pyval,
    LLMAPIClient.call_api json_loads config network prompt role stream st
    = (Returns (VDict result), after_request st prompt role stream []) ∧
    result !! "response" = Some (VStr content) ∧
    result !! "prompt_token_length" = Some prompt_tokens ∧
    result !! "response_token_length" = Some completion_tokens ∧
    result !! "total_duration" = Some VNone ∧
    result !! "load_duration" = Some VNone ∧
    result !! "prompt_duration" = Some VNone ∧
    result !! "response_duration" = Some VNone.
Proof.
  intros Hsvc Hlisted Hreq Hjson Husage Hpt Hct Hchoices Hm Hcontent.
  exists (result_dict (VStr (LLMAPIClient.model_name (LLMAPIClient.self st)))
            (default VNone (d !! "created")) VNone VNone prompt_tokens VNone
            completion_tokens VNone (VStr prompt) (VStr content)).
  split.
  { rewrite (call_api_openai json_loads config network prompt role stream st response
               d usage choice rest m Hsvc Hreq Hjson Hlisted Husage Hchoices Hm).
    by rewrite Hpt, Hct, Hcontent. }
  destruct (result_dict_fields (VStr (LLMAPIClient.model_name (LLMAPIClient.self st)))
              (default VNone (d !! "created")) VNone VNone prompt_tokens VNone
              completion_tokens VNone (VStr prompt) (VStr content))
    as (_ & _ & H3 & H4 & H5 & H6 & H7 & H8 & _ & H10).
  auto 10.
Qed.

Lemma call_api_openai_valid_response_witness :
  ∃ result : gmap string pyval,
    LLMAPIClient.call_api Samples.json_loads Samples.config_with_services
      (Samples.answers (Samples.ok_response Samples.openai_text))
      "Say hi" None false (Samples.start Samples.openai_client)
    = (Returns (VDict result),
       after_request (Samples.start Samples.openai_client) "Say hi" None false []) ∧
    result !! "response" = Some (VStr "Hi!") ∧
    result !! "prompt_token_length" = Some (VInt 3) ∧
    result !! "response_token_length" = Some (VInt 2) ∧
    result !! "total_duration" = Some VNone ∧
    result !! "load_duration" = Some VNone ∧
    result !! "prompt_duration" = Some VNone ∧
    result !! "response_duration" = Some VNone.
Proof.
  apply (call_api_openai_valid_response Samples.json_loads Samples.config_with_services
           (Samples.answers (Samples.ok_response Samples.openai_text))
           "Say hi" None false (Samples.start Samples.openai_client)
           (Samples.ok_response Samples.openai_text)
           (list_to_map
              [("created", VInt 1717800000);
               ("usage", VDict (list_to_map
                  [("prompt_tokens", VInt 3); ("completion_tokens", VInt 2)]));
               ("choices", VList [VDict (list_to_map
                  [("message", VDict (list_to_map [("content", VStr "Hi!")]))])])])
           (list_to_map [("prompt_tokens", VInt 3); ("completion_tokens", VInt 2)])
           (list_to_map [("message", VDict (list_to_map [("content", VStr "Hi!")]))])
           (list_to_map [("content", VStr "Hi!")]) []).
  - discriminate.
  - exists (VList [VStr "openai"; VStr "llamafile"]). split; reflexivity.
  - reflexivity.
  - reflexivity.
  - reflexivity.
  - reflexivity.
  - reflexivity.
  - reflexivity.
  - reflexivity.
  - reflexivity.
Defined.
